(** * Question services: versioned questions, drafts, cache and workflow

    A shallow embedding of [core/domain/question_services.py].  The module
    is stateful Python: it reads and writes the datastore models
    ([QuestionModel], [QuestionSummaryModel], [QuestionUserDataModel]) and
    memcache, and signals failure by raising.  The embedding threads one
    explicit [State] through a small state-and-exception monad [M]; an
    exception keeps the state reached when it was raised, as in Python. *)

From Stdlib Require Import ZArith String List Bool.
From stdpp Require Import base gmap strings list fin_maps pretty.

Open Scope Z_scope.

(** ** Python values *)

(** The dynamically typed payloads the service only passes around: the
    [question_data] dict, the [new_value] of a change, a language code. *)
#[local] Unset Elimination Schemes.
Inductive value : Type :=
| VNone
| VBool (b : bool)
| VInt (z : Z)
| VStr (s : string)
| VList (l : list value)
| VDict (d : list (string * value)).
#[local] Set Elimination Schemes.

(** ** Domain objects (question_domain) *)

(** [question_domain.Question(question_id, question_data,
    question_data_schema_version, language_code)], with the four attributes
    the service reads.  The object carries no [version] attribute. *)
Record Question : Type := mkQuestion {
  question_id : string;
  question_data : value;
  question_data_schema_version : Z;
  language_code : value
}.

(** A [QuestionChange]: the attributes [apply_change_list] reads.  Its dict
    form ([to_dict] / [QuestionChange(change_dict)]) holds the same three
    entries, so a stored change-list dict is represented by the same record. *)
Record QuestionChange : Type := mkChange {
  cmd : string;
  property_name : string;
  new_value : value
}.

(** Modelled from the spec: the string constants of [question_domain], a
    module absent from the sources at hand.  The design notes record that
    the update-property command and the question-data property name are
    different strings. *)
Definition CMD_UPDATE_QUESTION_PROPERTY : string := "update_question_property".
Definition QUESTION_PROPERTY_LANGUAGE_CODE : string := "language_code".
Definition QUESTION_PROPERTY_QUESTION_DATA : string := "question_data".
Definition CMD_SEND_QUESTION_FOR_REVIEW : string := "send_question_for_review".
Definition CMD_REJECT_QUESTION : string := "reject_question".

(** Modelled from the spec: the two setters of [question_domain.Question];
    each replaces exactly its own field (section 4.1). *)
Definition update_language_code (q : Question) (v : value) : Question :=
  {| question_id := question_id q;
     question_data := question_data q;
     question_data_schema_version := question_data_schema_version q;
     language_code := v |}.

Definition update_question_data (q : Question) (v : value) : Question :=
  {| question_id := question_id q;
     question_data := v;
     question_data_schema_version := question_data_schema_version q;
     language_code := language_code q |}.

(** Modelled from the spec: the status strings of [feconf], absent from the
    sources at hand; the four workflow states of section 4.4. *)
Definition ACTIVITY_STATUS_PRIVATE : string := "private".
Definition QUESTION_STATUS_PENDING : string := "pending".
Definition QUESTION_STATUS_APPROVED : string := "approved".
Definition QUESTION_STATUS_REJECTED : string := "rejected".

(** ** Storage models (question_models, user_models) *)

(** A [QuestionModel] instance as loaded from the datastore; [model_version]
    is the version counter of the versioned model. *)
Record QuestionModel : Type := mkModel {
  model_id : string;
  model_question_data : value;
  model_question_data_schema_version : Z;
  model_language_code : value;
  model_version : Z
}.

Record CommitLogEntry : Type := mkCommit {
  commit_version : Z;
  commit_committer_id : string;
  commit_message : option string;
  commit_cmds : list QuestionChange
}.

(** What the datastore keeps per question id: the current model, the
    snapshot of every committed version, and the append-only commit log. *)
Record VersionedQuestion : Type := mkVersioned {
  current : QuestionModel;
  snapshots : list QuestionModel;
  commit_log : list CommitLogEntry
}.

Record QuestionSummaryModel : Type := mkSummary {
  summary_id : string;
  summary_creator_id : string;
  summary_language_code : value;
  summary_status : string;
  summary_question_html_data : value
}.

Record SummaryCommit : Type := mkSummaryCommit {
  sc_question_id : string;
  sc_committer_id : string;
  sc_message : string;
  sc_cmd : string
}.

(** A [QuestionUserDataModel] row: one user's draft on one question.  The
    three draft fields are [None] until a draft is saved and after discard. *)
Record QuestionUserDataModel : Type := mkUserData {
  draft_change_list : option (list QuestionChange);
  draft_change_list_last_updated : option Z;
  draft_change_list_question_version : option Z;
  draft_change_list_id : Z
}.

(** ** The world the service runs in *)

Record State : Type := mkState {
  questions : gmap string VersionedQuestion;
  memcache : gmap string Question;
  summaries : gmap string QuestionSummaryModel;
  summary_commits : list SummaryCommit;
  user_data : gmap (string * string) QuestionUserDataModel;
  error_log : list string
}.

(** The exceptions the service raises or lets through.  The source raises
    plain [Exception] with a message; the constructors name the messages
    after the taxonomy of section 7. *)
Inductive error : Type :=
| EntityNotFoundError  (* a strict model get on a missing id *)
| AttributeError       (* attribute access on None *)
| InvalidChangeList    (* 'received an invalid change list when trying to save' *)
| ValidationError      (* Question.validate() *)
| QuestionDoesNotExist (* 'The given question does not exist' *)
| PermissionDenied     (* 'The user does not have enough rights to ...' *)
| AlreadyPublished     (* 'The question is already published.' *)
| AlreadyUnpublished   (* 'The question is already unpublished.' *)
| ComparisonTypeError. (* TypeError: can't compare a datetime to None *)

Inductive outcome (A : Type) : Type :=
| Ok (a : A)
| Raise (e : error).
Arguments Ok {A} a.
Arguments Raise {A} e.

Definition M (A : Type) : Type := State -> outcome A * State.

Definition ret {A} (a : A) : M A := fun s => (Ok a, s).
Definition raise {A} (e : error) : M A := fun s => (Raise e, s).
Definition bind {A B} (m : M A) (k : A -> M B) : M B :=
  fun s => match m s with
           | (Ok a, s') => k a s'
           | (Raise e, s') => (Raise e, s')
           end.

Declare Scope py_scope.
Delimit Scope py_scope with py.
Notation "x <- m ;; k" := (bind m (fun x => k))
  (at level 100, m at next level, right associativity) : py_scope.
Notation "m ;;; k" := (bind m (fun _ => k))
  (at level 100, right associativity) : py_scope.
Open Scope py_scope.

(** Python truthiness of a possibly-None list: None and [] are falsy. *)
Definition truthy_list {A} (l : option (list A)) : bool :=
  match l with
  | Some (_ :: _) => true
  | _ => false
  end.

(** ** Storage and cache primitives *)

Definition set_questions (f : gmap string VersionedQuestion -> gmap string VersionedQuestion)
    (s : State) : State :=
  {| questions := f (questions s); memcache := memcache s;
     summaries := summaries s; summary_commits := summary_commits s;
     user_data := user_data s; error_log := error_log s |}.

Definition set_memcache (f : gmap string Question -> gmap string Question)
    (s : State) : State :=
  {| questions := questions s; memcache := f (memcache s);
     summaries := summaries s; summary_commits := summary_commits s;
     user_data := user_data s; error_log := error_log s |}.

Definition set_summaries (f : gmap string QuestionSummaryModel -> gmap string QuestionSummaryModel)
    (s : State) : State :=
  {| questions := questions s; memcache := memcache s;
     summaries := f (summaries s); summary_commits := summary_commits s;
     user_data := user_data s; error_log := error_log s |}.

Definition set_summary_commits (f : list SummaryCommit -> list SummaryCommit)
    (s : State) : State :=
  {| questions := questions s; memcache := memcache s;
     summaries := summaries s; summary_commits := f (summary_commits s);
     user_data := user_data s; error_log := error_log s |}.

Definition set_user_data
    (f : gmap (string * string) QuestionUserDataModel -> gmap (string * string) QuestionUserDataModel)
    (s : State) : State :=
  {| questions := questions s; memcache := memcache s;
     summaries := summaries s; summary_commits := summary_commits s;
     user_data := f (user_data s); error_log := error_log s |}.

Definition set_error_log (f : list string -> list string) (s : State) : State :=
  {| questions := questions s; memcache := memcache s;
     summaries := summaries s; summary_commits := summary_commits s;
     user_data := user_data s; error_log := f (error_log s) |}.

(** Modelled from the spec: [QuestionModel.get(question_id, strict, version)]
    of the storage adapter (section 6, [get(id, version?)]): the current
    model, or the snapshot of the requested version; a missing entity raises
    when [strict] and is [None] otherwise. *)
Definition QuestionModel_get (qid : string) (strict : bool) (version : option Z)
    : M (option QuestionModel) :=
  fun s =>
    let found :=
      match questions s !! qid with
      | None => None
      | Some vq =>
          match version with
          | None => Some (current vq)
          | Some v => List.find (fun m => model_version m =? v) (snapshots vq)
          end
      end in
    match found with
    | Some m => (Ok (Some m), s)
    | None => if strict then (Raise EntityNotFoundError, s) else (Ok None, s)
    end.

(** Modelled from the spec: [commit] of the versioned [QuestionModel]
    (section 4.2, update): the instance is persisted as version N+1, its
    snapshot is kept, and a commit-log entry records committer, message and
    change list.  The datastore layer does not touch memcache. *)
Definition QuestionModel_commit (m : QuestionModel) (committer_id : string)
    (message : option string) (cmds : list QuestionChange) : M unit :=
  fun s =>
    let m' := {| model_id := model_id m;
                 model_question_data := model_question_data m;
                 model_question_data_schema_version := model_question_data_schema_version m;
                 model_language_code := model_language_code m;
                 model_version := model_version m + 1 |} in
    let entry := {| commit_version := model_version m + 1;
                    commit_committer_id := committer_id;
                    commit_message := message;
                    commit_cmds := cmds |} in
    let old_snapshots := match questions s !! model_id m with
                         | Some vq => snapshots vq | None => [] end in
    let old_log := match questions s !! model_id m with
                   | Some vq => commit_log vq | None => [] end in
    (Ok tt,
     set_questions (insert (model_id m)
       {| current := m'; snapshots := old_snapshots ++ [m'];
          commit_log := old_log ++ [entry] |}) s).

(** [memcache_services.get_multi([key]).get(key)] and
    [memcache_services.set_multi({key: question})].  Memcache holds
    serialized copies, so a cached question is a value, not a reference. *)
Definition memcache_get (key : string) : M (option Question) :=
  fun s => (Ok (memcache s !! key), s).

Definition memcache_set (key : string) (q : Question) : M unit :=
  fun s => (Ok tt, set_memcache (insert key q) s).

(** Modelled from the spec: [QuestionSummaryModel.get(question_id, strict)]
    and the persisting [put] / [commit] of a summary instance. *)
Definition QuestionSummaryModel_get (qid : string) (strict : bool)
    : M (option QuestionSummaryModel) :=
  fun s =>
    match summaries s !! qid with
    | Some sm => (Ok (Some sm), s)
    | None => if strict then (Raise EntityNotFoundError, s) else (Ok None, s)
    end.

Definition QuestionSummaryModel_put (sm : QuestionSummaryModel) : M unit :=
  fun s => (Ok tt, set_summaries (insert (summary_id sm) sm) s).

Definition QuestionSummaryModel_commit (sm : QuestionSummaryModel)
    (committer_id message c : string) : M unit :=
  fun s =>
    (Ok tt,
     set_summary_commits
       (fun l => l ++ [ {| sc_question_id := summary_id sm;
                           sc_committer_id := committer_id;
                           sc_message := message; sc_cmd := c |} ])
       (set_summaries (insert (summary_id sm) sm) s)).

(** Modelled from the spec: [QuestionUserDataModel.get(user_id, question_id)]
    ([None] when the row is absent), [create] (a fresh row whose
    [draft_change_list_id] starts at 0, section 4.3) and [put]. *)
Definition QuestionUserDataModel_get (user_id qid : string)
    : M (option QuestionUserDataModel) :=
  fun s => (Ok (user_data s !! (user_id, qid)), s).

Definition fresh_user_data : QuestionUserDataModel :=
  {| draft_change_list := None;
     draft_change_list_last_updated := None;
     draft_change_list_question_version := None;
     draft_change_list_id := 0 |}.

Definition QuestionUserDataModel_put (user_id qid : string)
    (d : QuestionUserDataModel) : M unit :=
  fun s => (Ok tt, set_user_data (insert (user_id, qid) d) s).

Definition QuestionUserDataModel_create (user_id qid : string)
    : M QuestionUserDataModel :=
  QuestionUserDataModel_put user_id qid fresh_user_data ;;;
  ret fresh_user_data.

(** ** The collaborators the service consumes as opaque predicates *)

(** [question.validate()] (true: returns; false: raises a validation error),
    [user_services.is_admin], [user_services.is_topic_manager], the action
    list of [user_services.UserActionsInfo(committer_id)] and the action
    name [role_services.ACTION_CHANGE_QUESTION_STATUS]. *)
Class Collaborators : Type := {
  validate : Question -> bool;
  is_admin : string -> bool;
  is_topic_manager : string -> bool;
  actions : string -> list string;
  ACTION_CHANGE_QUESTION_STATUS : string
}.

(** [x in l] on a list of strings. *)
Definition str_in (x : string) (l : list string) : bool :=
  existsb (String.eqb x) l.

Section Services.
Context `{Collaborators}.

Definition get_question_from_model (question_model : QuestionModel) : Question :=
  {| question_id := model_id question_model;
     question_data := model_question_data question_model;
     question_data_schema_version := model_question_data_schema_version question_model;
     language_code := model_language_code question_model |}.

(** [if version:] is false for None and for 0. *)
Definition _get_question_memcache_key (qid : string) (version : option Z) : string :=
  match version with
  | Some v =>
      if v =? 0 then ("question:" +:+ qid)%string
      else ("question-version:" +:+ qid +:+ ":" +:+ pretty v)%string
  | None => ("question:" +:+ qid)%string
  end.

Definition get_question_by_id (qid : string) (strict : bool) (version : option Z)
    : M (option Question) :=
  let question_memcache_key := _get_question_memcache_key qid version in
  memcached_question <- memcache_get question_memcache_key ;;
  match memcached_question with
  | Some q => ret (Some q)
  | None =>
      question_model <- QuestionModel_get qid strict version ;;
      match question_model with
      | Some m =>
          let question := get_question_from_model m in
          memcache_set question_memcache_key question ;;;
          ret (Some question)
      | None => ret None
      end
  end.

(** One iteration of the loop of [apply_change_list].  The inner [elif]
    compares [change.cmd], as the source does, not [change.property_name]. *)
Definition apply_change (question : Question) (change : QuestionChange) : Question :=
  if String.eqb (cmd change) CMD_UPDATE_QUESTION_PROPERTY then
    if String.eqb (property_name change) QUESTION_PROPERTY_LANGUAGE_CODE then
      update_language_code question (new_value change)
    else if String.eqb (cmd change) QUESTION_PROPERTY_QUESTION_DATA then
      update_question_data question (new_value change)
    else question
  else question.

(** Whether the iteration calls a method of the question object. *)
Definition calls_method (change : QuestionChange) : bool :=
  String.eqb (cmd change) CMD_UPDATE_QUESTION_PROPERTY &&
  (String.eqb (property_name change) QUESTION_PROPERTY_LANGUAGE_CODE ||
   String.eqb (cmd change) QUESTION_PROPERTY_QUESTION_DATA).

Definition logging_error (e : error) (qid : string) : M unit :=
  fun s => (Ok tt, set_error_log (fun l => l ++ [qid]) s).

(** The question is fetched outside the [try]; inside it the loop mutates
    the fetched object in order.  On a None question the first iteration
    that calls a method raises, which is logged and re-raised. *)
Definition apply_change_list (qid : string) (change_list : list QuestionChange)
    : M (option Question) :=
  question <- get_question_by_id qid true None ;;
  match question with
  | Some q => ret (Some (fold_left apply_change change_list q))
  | None =>
      if existsb calls_method change_list
      then logging_error AttributeError qid ;;; raise AttributeError
      else ret None
  end.

Definition _save_question (committer_id : string) (question : option Question)
    (change_list : list QuestionChange) (commit_message : option string) : M unit :=
  match change_list with
  | [] =>
      (* the message formats question.question_id first *)
      match question with
      | None => raise AttributeError
      | Some _ => raise InvalidChangeList
      end
  | _ :: _ =>
      match question with
      | None => raise AttributeError
      | Some q =>
          if validate q then
            question_model <- QuestionModel_get (question_id q) true None ;;
            match question_model with
            | None => raise AttributeError
            | Some m =>
                let m1 := {| model_id := model_id m;
                             model_question_data := question_data q;
                             model_question_data_schema_version :=
                               question_data_schema_version q;
                             model_language_code := language_code q;
                             model_version := model_version m |} in
                QuestionModel_commit m1 committer_id commit_message change_list
            end
          else raise ValidationError
      end
  end.

Definition update_question (committer_id qid : string)
    (change_list : list QuestionChange) (commit_message : option string) : M unit :=
  updated_question <- apply_change_list qid change_list ;;
  _save_question committer_id updated_question change_list commit_message.

Definition get_question_summary_by_question_id (qid : string) (strict : bool)
    : M (option QuestionSummaryModel) :=
  QuestionSummaryModel_get qid strict.

Definition with_status (sm : QuestionSummaryModel) (status : string)
    : QuestionSummaryModel :=
  {| summary_id := summary_id sm;
     summary_creator_id := summary_creator_id sm;
     summary_language_code := summary_language_code sm;
     summary_status := status;
     summary_question_html_data := summary_question_html_data sm |}.

Definition send_question_for_review (committer_id qid : string) : M unit :=
  model <- get_question_summary_by_question_id qid false ;;
  match model with
  | None => raise AttributeError
  | Some sm =>
      QuestionSummaryModel_commit (with_status sm QUESTION_STATUS_PENDING)
        committer_id "Marked question as pending." CMD_SEND_QUESTION_FOR_REVIEW
  end.

Definition reject_question (committer_id qid : string) : M unit :=
  model <- get_question_summary_by_question_id qid false ;;
  match model with
  | None => raise AttributeError
  | Some sm =>
      QuestionSummaryModel_commit (with_status sm QUESTION_STATUS_REJECTED)
        committer_id "Marked question as rejected." CMD_REJECT_QUESTION
  end.

Definition check_can_edit_question (user_id qid : string) : M bool :=
  question_summary <- get_question_summary_by_question_id qid false ;;
  match question_summary with
  | None => raise AttributeError
  | Some sm =>
      if String.eqb (summary_status sm) QUESTION_STATUS_PENDING then ret false
      else if (String.eqb (summary_status sm) ACTIVITY_STATUS_PRIVATE ||
               String.eqb (summary_status sm) QUESTION_STATUS_REJECTED) &&
              String.eqb (summary_creator_id sm) user_id then ret true
      else if is_admin user_id || is_topic_manager user_id then
        if String.eqb (summary_status sm) QUESTION_STATUS_APPROVED then ret true
        else ret false
      else ret false
  end.

(** [role_services.ACTION_CHANGE_QUESTION_STATUS in user.actions]. *)
Definition holds_status_change (committer_id : string) : bool :=
  str_in ACTION_CHANGE_QUESTION_STATUS (actions committer_id).

Definition publish_question (qid committer_id : string) : M unit :=
  question_summary <- get_question_summary_by_question_id qid false ;;
  match question_summary with
  | None => raise QuestionDoesNotExist
  | Some sm =>
      if negb (holds_status_change committer_id)
      then raise PermissionDenied
      else if String.eqb (summary_status sm) QUESTION_STATUS_APPROVED
      then raise AlreadyPublished
      else QuestionSummaryModel_put (with_status sm QUESTION_STATUS_APPROVED)
  end.

Definition unpublish_question (qid committer_id : string) : M unit :=
  question_summary <- get_question_summary_by_question_id qid false ;;
  match question_summary with
  | None => raise QuestionDoesNotExist
  | Some sm =>
      if negb (holds_status_change committer_id)
      then raise PermissionDenied
      else if negb (String.eqb (summary_status sm) QUESTION_STATUS_APPROVED)
      then raise AlreadyUnpublished
      else QuestionSummaryModel_put (with_status sm ACTIVITY_STATUS_PRIVATE)
  end.

(** [x == version] where [version] may be None. *)
Definition eq_opt_int (x : Z) (version : option Z) : bool :=
  match version with
  | Some v => x =? v
  | None => false
  end.

Definition is_version_of_draft_valid (qid : string) (version : option Z) : M bool :=
  question <- get_question_by_id qid true None ;;
  match question with
  | None => raise AttributeError
  | Some q => ret (eq_opt_int (question_data_schema_version q) version)
  end.

(** The condition of the final conditional expression is evaluated left to
    right and short-circuits, so the validity check and the engine run only
    for an existing row with a non-empty change list. *)
Definition get_question_with_draft_applied (qid user_id : string)
    : M (option Question) :=
  question_user_data <- QuestionUserDataModel_get user_id qid ;;
  question <- get_question_by_id qid true None ;;
  match question_user_data with
  | Some d =>
      match draft_change_list d with
      | Some (c :: cs) =>
          valid <- is_version_of_draft_valid qid
                     (draft_change_list_question_version d) ;;
          if valid then apply_change_list qid (c :: cs) else ret question
      | _ => ret question
      end
  | None => ret question
  end.

Definition discard_draft (qid user_id : string) : M unit :=
  question_user_data <- QuestionUserDataModel_get user_id qid ;;
  match question_user_data with
  | Some d =>
      QuestionUserDataModel_put user_id qid
        {| draft_change_list := None;
           draft_change_list_last_updated := None;
           draft_change_list_question_version := None;
           draft_change_list_id := draft_change_list_id d |}
  | None => ret tt
  end.

(** [last_updated > current_datetime]: an ordering comparison of a
    datetime with None raises a type error. *)
Definition newer_than (last_updated : option Z) (current_datetime : Z)
    : outcome bool :=
  match last_updated with
  | Some t => Ok (current_datetime <? t)
  | None => Raise ComparisonTypeError
  end.

(** The condition of the early return, evaluated left to right with
    short-circuit: a row, a non-empty change list on it, and only then the
    comparison of its timestamp with [current_datetime]. *)
Definition newer_draft_exists (question_user_data : option QuestionUserDataModel)
    (current_datetime : Z) : outcome bool :=
  match question_user_data with
  | Some d =>
      if truthy_list (draft_change_list d)
      then newer_than (draft_change_list_last_updated d) current_datetime
      else Ok false
  | None => Ok false
  end.

(** [question_user_data.draft_change_list_id] after the optional [create]. *)
Definition current_draft_id (question_user_data : option QuestionUserDataModel) : Z :=
  match question_user_data with
  | Some d => draft_change_list_id d
  | None => draft_change_list_id fresh_user_data
  end.

Definition create_or_update_draft (qid user_id : string)
    (change_list : list QuestionChange) (question_version current_datetime : Z)
    : M unit :=
  question_user_data <- QuestionUserDataModel_get user_id qid ;;
  match newer_draft_exists question_user_data current_datetime with
  | Raise e => raise e
  | Ok true => ret tt
  | Ok false =>
    updated_question <- apply_change_list qid change_list ;;
    match updated_question with
    | None => raise AttributeError
    | Some q =>
        if validate q then
          d <- match question_user_data with
               | None => QuestionUserDataModel_create user_id qid
               | Some d => ret d
               end ;;
          QuestionUserDataModel_put user_id qid
            {| draft_change_list := Some change_list;
               draft_change_list_last_updated := Some current_datetime;
               draft_change_list_question_version := Some question_version;
               draft_change_list_id := draft_change_list_id d + 1 |}
        else raise ValidationError
    end
  end.

End Services.

(** ** Reading a question through the cache, as a function of the state *)

(** The memcache key of the latest version of a question. *)
Definition latest_key (qid : string) : string := ("question:" +:+ qid)%string.

(** What a read of the latest version serves: the cached copy when there is
    one, the stored current model otherwise. *)
Definition served (s : State) (qid : string) : option Question :=
  match memcache s !! latest_key qid with
  | Some q => Some q
  | None =>
      match questions s !! qid with
      | Some vq => Some (mkQuestion (model_id (current vq))
                           (model_question_data (current vq))
                           (model_question_data_schema_version (current vq))
                           (model_language_code (current vq)))
      | None => None
      end
  end.

(** The state such a read leaves: a miss on a stored question fills the
    cache with the question read. *)
Definition filled (s : State) (qid : string) : State :=
  match memcache s !! latest_key qid, served s qid with
  | None, Some q => set_memcache (insert (latest_key qid) q) s
  | _, _ => s
  end.

(** Edits the engine has no branch for: another command, or an
    update-property edit on a property that is neither the language code
    nor the question data. *)
Definition unrecognised (c : QuestionChange) : bool :=
  negb (String.eqb (cmd c) CMD_UPDATE_QUESTION_PROPERTY) ||
  negb (String.eqb (property_name c) QUESTION_PROPERTY_LANGUAGE_CODE ||
        String.eqb (property_name c) QUESTION_PROPERTY_QUESTION_DATA).

(** The stored model a commit of question [q] on top of model [m] writes. *)
Definition committed (m : QuestionModel) (q : Question) : QuestionModel :=
  {| model_id := model_id m;
     model_question_data := question_data q;
     model_question_data_schema_version := question_data_schema_version q;
     model_language_code := language_code q;
     model_version := model_version m + 1 |}.

(** The state a successful update leaves: the cache as the engine's read
    left it, the store with the new version, snapshot and log entry. *)
Definition after_update (s : State) (committer_id qid : string)
    (cl : list QuestionChange) (message : option string)
    (vq : VersionedQuestion) (q : Question) : State :=
  set_questions
    (insert qid
       {| current := committed (current vq) (fold_left apply_change cl q);
          snapshots := snapshots vq ++
                       [committed (current vq) (fold_left apply_change cl q)];
          commit_log := commit_log vq ++
                        [mkCommit (model_version (current vq) + 1)
                           committer_id message cl] |})
    (filled s qid).

(** ** A concrete world, used to run the service on explicit inputs *)

Module Sample.

(** Modelled from the spec: [Question.validate] as section 4.2 describes
    it: a non-empty payload, a recognised language code and a non-negative
    schema version. *)
Definition spec_validate (q : Question) : bool :=
  match question_data q with VDict (_ :: _) => true | _ => false end &&
  match language_code q with
  | VStr l => str_in l ["en"; "fr"; "de"]
  | _ => false
  end &&
  (0 <=? question_data_schema_version q).

(** alice is an ordinary user, root an admin holding the status-change
    action, mallory holds nothing. *)
Definition world : Collaborators :=
  {| validate := spec_validate;
     is_admin := fun u => String.eqb u "root";
     is_topic_manager := fun u => String.eqb u "tm";
     actions := fun u => if String.eqb u "root" then ["CHANGE_QUESTION_STATUS"] else [];
     ACTION_CHANGE_QUESTION_STATUS := "CHANGE_QUESTION_STATUS" |}.

Definition payload (html : string) : value :=
  VDict [("content", VDict [("html", VStr html)])].

Definition model1 : QuestionModel :=
  {| model_id := "q1"; model_question_data := payload "P1";
     model_question_data_schema_version := 1;
     model_language_code := VStr "en"; model_version := 1 |}.

Definition model2 : QuestionModel :=
  {| model_id := "q1"; model_question_data := payload "P1";
     model_question_data_schema_version := 1;
     model_language_code := VStr "fr"; model_version := 2 |}.

Definition create_entry : CommitLogEntry :=
  {| commit_version := 1; commit_committer_id := "alice";
     commit_message := Some "New question created";
     commit_cmds := [mkChange "create_new" "" VNone] |}.

Definition summary_of (status : string) : QuestionSummaryModel :=
  {| summary_id := "q1"; summary_creator_id := "alice";
     summary_language_code := VStr "en"; summary_status := status;
     summary_question_html_data := VStr "P1" |}.

Definition set_language (l : string) : QuestionChange :=
  mkChange CMD_UPDATE_QUESTION_PROPERTY QUESTION_PROPERTY_LANGUAGE_CODE (VStr l).

Definition set_data (html : string) : QuestionChange :=
  mkChange CMD_UPDATE_QUESTION_PROPERTY QUESTION_PROPERTY_QUESTION_DATA (payload html).

(** Question q1 as created by alice: version 1, private, nothing cached,
    no draft. *)
Definition s_created (status : string) : State :=
  {| questions := {[ "q1" := mkVersioned model1 [model1] [create_entry] ]};
     memcache := ∅;
     summaries := {[ "q1" := summary_of status ]};
     summary_commits := [];
     user_data := ∅;
     error_log := [] |}.

(** Question q1 after bob saved a draft against version 1 and alice then
    committed a translation: version 2, schema version still 1, the cache
    entry expired. *)
Definition s_stale_draft : State :=
  {| questions := {[ "q1" := mkVersioned model2 [model1; model2]
                       [create_entry;
                        mkCommit 2 "alice" (Some "translate") [set_language "fr"]] ]};
     memcache := ∅;
     summaries := {[ "q1" := summary_of "private" ]};
     summary_commits := [];
     user_data := {[ ("bob", "q1") :=
                       mkUserData (Some [set_language "de"]) (Some 100) (Some 1) 1 ]};
     error_log := [] |}.

End Sample.

(** ** Further service functions *)

(** Modelled from the spec: [QuestionModel.get_multi(question_ids)] of the
    storage adapter (section 6): one entry per id, in order, [None] for an
    id that has no entity. *)
Definition QuestionModel_get_multi (question_ids : list string)
    : M (list (option QuestionModel)) :=
  fun s => (Ok (map (fun i => current <$> questions s !! i) question_ids), s).

(** The loop of [get_questions_by_ids]: each model is converted and
    appended; the conversion reads [question_model.id], which raises on
    None. *)
Fixpoint get_questions_loop (question_model_list : list (option QuestionModel))
    (acc : list Question) : M (list Question) :=
  match question_model_list with
  | [] => ret acc
  | None :: _ => raise AttributeError
  | Some question_model :: rest =>
      get_questions_loop rest
        (acc ++ [get_question_from_model question_model])
  end.

Definition get_questions_by_ids (question_ids : list string) : M (list Question) :=
  question_model_list <- QuestionModel_get_multi question_ids ;;
  get_questions_loop question_model_list [].

(** The dict [get_user_question_data] returns, one field per key;
    [ed_states_question_data] is [states['question_data']]. *)
Record EditorDict : Type := mkEditorDict {
  ed_draft_change_list_id : Z;
  ed_question_id : string;
  ed_language_code : value;
  ed_param_changes : list value;
  ed_param_specs : list (string * value);
  ed_states_question_data : value;
  ed_version : Z;
  ed_is_version_of_draft_valid : option bool;
  ed_draft_changes : option (list QuestionChange);
  ed_init_state_name : string
}.

(** Truthiness of a possibly-None int: None and 0 are falsy. *)
Definition truthy_int (v : option Z) : bool :=
  match v with
  | Some z => negb (z =? 0)
  | None => false
  end.

Definition get_user_question_data (user_id qid : string) (apply_draft : bool)
    (version : option Z) : M EditorDict :=
  question <- (if apply_draft
               then get_question_with_draft_applied qid user_id
               else get_question_by_id qid true version) ;;
  match question with
  | None => raise AttributeError
  | Some q =>
      let state_dict := question_data q in
      question_user_data <- QuestionUserDataModel_get user_id qid ;;
      let draft_changes :=
        match question_user_data with
        | Some d => if truthy_list (draft_change_list d)
                    then draft_change_list d else None
        | None => None
        end in
      is_valid_draft_version <-
        match question_user_data with
        | Some d =>
            if truthy_int (draft_change_list_question_version d)
            then valid <- is_version_of_draft_valid qid
                            (draft_change_list_question_version d) ;;
                 ret (Some valid)
            else ret None
        | None => ret None
        end ;;
      let draft_change_list_id :=
        match question_user_data with
        | Some d => draft_change_list_id d
        | None => 0
        end in
      ret {| ed_draft_change_list_id := draft_change_list_id;
             ed_question_id := qid;
             ed_language_code := language_code q;
             ed_param_changes := [];
             ed_param_specs := [];
             ed_states_question_data := state_dict;
             ed_version := question_data_schema_version q;
             ed_is_version_of_draft_valid := is_valid_draft_version;
             ed_draft_changes := draft_changes;
             ed_init_state_name := "question_data" |}
  end.

(** Whether a change is an update of the language code, the one edit the
    engine carries out. *)
Definition is_language_edit (c : QuestionChange) : bool :=
  String.eqb (cmd c) CMD_UPDATE_QUESTION_PROPERTY &&
  String.eqb (property_name c) QUESTION_PROPERTY_LANGUAGE_CODE.

(** A sequence of calls to [update_question], one per entry
    (committer, change list, message), stopping at the first that raises. *)
Fixpoint update_each `{Collaborators} (qid : string)
    (calls : list (string * list QuestionChange * option string)) : M unit :=
  match calls with
  | [] => ret tt
  | (committer_id, change_list, message) :: rest =>
      update_question committer_id qid change_list message ;;;
      update_each qid rest
  end.

(** Whether the draft row [d] is applied on top of question [q] by a
    draft-aware read: a non-empty change list whose recorded version is the
    schema version of the question. *)
Definition draft_applies (d : QuestionUserDataModel) (q : Question) : bool :=
  truthy_list (draft_change_list d) &&
  eq_opt_int (question_data_schema_version q) (draft_change_list_question_version d).

(** The question a draft-aware read returns when a plain read serves [q]. *)
Definition with_draft (row : option QuestionUserDataModel) (q : Question) : Question :=
  match row with
  | Some d =>
      if draft_applies d q
      then fold_left apply_change (default [] (draft_change_list d)) q
      else q
  | None => q
  end.

(** ** Rights, creation and deletion *)

(** These functions also reach the rights models and index into the
    question data, so they run over a wider world: the state above, the
    rights store, and the entities a soft delete retains.  Their
    exceptions are those above and the two a subscript can raise. *)

(** [question_domain.QuestionRights(id, manager_ids)]. *)
Record QuestionRights : Type := mkRights {
  rights_id : string;
  manager_ids : list string
}.

Record QuestionRightsModel : Type := mkRightsModel {
  rights_model_id : string;
  rights_model_manager_ids : list string;
  rights_model_version : Z
}.

Record VersionedRights : Type := mkVersionedRights {
  rights_current : QuestionRightsModel;
  rights_log : list CommitLogEntry
}.

(** Modelled from the spec: [question_domain.QuestionSummary(question_id,
    creator_id, language_code, status, question_html_data)], the summary
    projection of section 3, with the attributes [save_question_summary]
    reads; the two timestamps are left to the datastore. *)
Record QuestionSummary : Type := mkQuestionSummary {
  qs_id : string;
  qs_creator_id : string;
  qs_language_code : value;
  qs_status : string;
  qs_question_data : value
}.

Record World : Type := mkWorld {
  base : State;
  question_rights : gmap string VersionedRights;
  graveyard : gmap string VersionedQuestion;
  removed_summaries : gmap string QuestionSummaryModel
}.

Inductive exn : Type :=
| ServiceError (e : error)
| KeyError (k : string)
| TypeError.

Inductive result (A : Type) : Type :=
| Returns (a : A)
| Raises (x : exn).
Arguments Returns {A} a.
Arguments Raises {A} x.

Definition W (A : Type) : Type := World -> result A * World.

Definition wret {A} (a : A) : W A := fun w => (Returns a, w).
Definition wraise {A} (x : exn) : W A := fun w => (Raises x, w).
Definition wbind {A B} (m : W A) (k : A -> W B) : W B :=
  fun w => match m w with
           | (Returns a, w') => k a w'
           | (Raises x, w') => (Raises x, w')
           end.

Declare Scope world_scope.
Delimit Scope world_scope with world.
Notation "x <- m ;; k" := (wbind m (fun x => k))
  (at level 100, m at next level, right associativity) : world_scope.
Notation "m ;;; k" := (wbind m (fun _ => k))
  (at level 100, right associativity) : world_scope.

Definition set_base (s : State) (w : World) : World :=
  {| base := s; question_rights := question_rights w; graveyard := graveyard w;
     removed_summaries := removed_summaries w |}.

(** A service function of the narrower state, run in the world. *)
Definition lift {A} (m : M A) : W A :=
  fun w => match m (base w) with
           | (Ok a, s') => (Returns a, set_base s' w)
           | (Raise e, s') => (Raises (ServiceError e), set_base s' w)
           end.

(** The result of a pure step that may raise. *)
Definition wpure {A} (r : result A) : W A := fun w => (r, w).

(** Python subscription [v[k]] with a string key: the entry of a dict, a
    key error when the dict lacks it, a type error on anything else. *)
Definition getitem (v : value) (k : string) : result value :=
  match v with
  | VDict d =>
      match List.find (fun kv => String.eqb (fst kv) k) d with
      | Some kv => Returns (snd kv)
      | None => Raises (KeyError k)
      end
  | _ => Raises TypeError
  end.

Definition CMD_CREATE_NEW : string := "create_new".

(** Modelled from the spec: the commit message constant of [feconf] used
    on deletion. *)
Definition COMMIT_MESSAGE_QUESTION_DELETED : string := "Question deleted.".

(** Modelled from the spec: [QuestionRightsModel.get(id, strict)] and the
    [commit] of a rights model (a new version and a log entry), as for
    questions. *)
Definition QuestionRightsModel_get (qid : string) (strict : bool)
    : W (option QuestionRightsModel) :=
  fun w =>
    match question_rights w !! qid with
    | Some vr => (Returns (Some (rights_current vr)), w)
    | None => if strict then (Raises (ServiceError EntityNotFoundError), w)
              else (Returns None, w)
    end.

Definition QuestionRightsModel_commit (m : QuestionRightsModel)
    (committer_id message : string) (cmds : list QuestionChange) : W unit :=
  fun w =>
    let m' := {| rights_model_id := rights_model_id m;
                 rights_model_manager_ids := rights_model_manager_ids m;
                 rights_model_version := rights_model_version m + 1 |} in
    let old_log := match question_rights w !! rights_model_id m with
                   | Some vr => rights_log vr | None => [] end in
    (Returns tt,
     {| base := base w;
        question_rights :=
          <[rights_model_id m :=
              {| rights_current := m';
                 rights_log := old_log ++
                   [mkCommit (rights_model_version m + 1) committer_id
                      (Some message) cmds] |}]> (question_rights w);
        graveyard := graveyard w;
        removed_summaries := removed_summaries w |}).

(** Modelled from the spec: [delete] of the versioned question model
    (section 4.2, delete).  A hard delete irreversibly removes all versions
    and the commit log of the entity, its rights and its summary.  A soft
    delete marks the entity and its summary as removed, so that a later
    [get] no longer finds them, and retains all versions and the commit log
    (here with an entry for the deletion) for audit and recovery.  The
    cache keys are built by the service module alone, so the model layer
    does not reach the cache. *)
Definition QuestionModel_delete (m : QuestionModel) (committer_id message : string)
    (force_deletion : bool) : W unit :=
  fun w =>
    let live :=
      set_summaries (delete (model_id m))
        (set_questions (delete (model_id m)) (base w)) in
    if force_deletion then
      (Returns tt,
       {| base := live;
          question_rights := delete (model_id m) (question_rights w);
          graveyard := graveyard w;
          removed_summaries := removed_summaries w |})
    else
      (Returns tt,
       {| base := live;
          question_rights := question_rights w;
          graveyard :=
            match questions (base w) !! model_id m with
            | Some vq =>
                <[model_id m :=
                    {| current := current vq; snapshots := snapshots vq;
                       commit_log := commit_log vq ++
                         [mkCommit (model_version m + 1) committer_id
                            (Some message) [mkChange "delete" "" VNone]] |}]>
                  (graveyard w)
            | None => graveyard w
            end;
          removed_summaries :=
            match summaries (base w) !! model_id m with
            | Some sm => <[model_id m := sm]> (removed_summaries w)
            | None => removed_summaries w
            end |}).

Definition get_question_rights_from_model (question_rights_model : QuestionRightsModel)
    : QuestionRights :=
  {| rights_id := rights_model_id question_rights_model;
     manager_ids := rights_model_manager_ids question_rights_model |}.

(** The commands are given as change objects and stored as their dicts,
    which the embedding represents by the same record. *)
Definition save_question_rights (question_rights : QuestionRights)
    (committer_id commit_message : string) (commit_cmds : list QuestionChange)
    : W unit :=
  (model <- QuestionRightsModel_get (rights_id question_rights) false ;;
   match model with
   | None => wraise (ServiceError AttributeError)
   | Some m =>
       QuestionRightsModel_commit
         {| rights_model_id := rights_model_id m;
            rights_model_manager_ids := manager_ids question_rights;
            rights_model_version := rights_model_version m |}
         committer_id commit_message commit_cmds
   end)%world.

(** A new model instance starts at version 0; its first commit is
    version 1. *)
Definition create_new_question_rights (qid committer_id : string) : W unit :=
  let question_rights := {| rights_id := qid; manager_ids := [] |} in
  QuestionRightsModel_commit
    {| rights_model_id := rights_id question_rights;
       rights_model_manager_ids := manager_ids question_rights;
       rights_model_version := 0 |}
    committer_id "Created new question rights" [mkChange CMD_CREATE_NEW "" VNone].

Definition get_question_rights (qid : string) (strict : bool)
    : W (option QuestionRights) :=
  (model <- QuestionRightsModel_get qid strict ;;
   match model with
   | None => wret None
   | Some m => wret (Some (get_question_rights_from_model m))
   end)%world.

Definition compute_summary_of_question (question : Question)
    (creator_id status : string) : result QuestionSummary :=
  match getitem (question_data question) "content" with
  | Raises x => Raises x
  | Returns content =>
      match getitem content "html" with
      | Raises x => Raises x
      | Returns question_html_data =>
          Returns {| qs_id := question_id question;
                     qs_creator_id := creator_id;
                     qs_language_code := language_code question;
                     qs_status := status;
                     qs_question_data := question_html_data |}
      end
  end.

Definition save_question_summary (question_summary : QuestionSummary) : W unit :=
  lift (QuestionSummaryModel_put
          {| summary_id := qs_id question_summary;
             summary_creator_id := qs_creator_id question_summary;
             summary_language_code := qs_language_code question_summary;
             summary_status := qs_status question_summary;
             summary_question_html_data := qs_question_data question_summary |}).

Definition create_question_summary (qid creator_id status : string) : W unit :=
  (question <- lift (get_question_by_id qid true None) ;;
   match question with
   | None => wraise (ServiceError AttributeError)
   | Some q =>
       question_summary <- wpure (compute_summary_of_question q creator_id status) ;;
       save_question_summary question_summary
   end)%world.

Definition _create_new_question `{Collaborators} (committer_id : string)
    (question : Question) (commit_message : string) : W string :=
  (if validate question then
     create_new_question_rights (question_id question) committer_id ;;;
     let model := {| model_id := question_id question;
                     model_question_data := question_data question;
                     model_question_data_schema_version :=
                       question_data_schema_version question;
                     model_language_code := language_code question;
                     model_version := 0 |} in
     lift (QuestionModel_commit model committer_id (Some commit_message)
             [mkChange CMD_CREATE_NEW "" VNone]) ;;;
     create_question_summary (model_id model) committer_id ACTIVITY_STATUS_PRIVATE ;;;
     wret (model_id model)
   else wraise (ServiceError ValidationError))%world.

Definition add_question `{Collaborators} (committer_id : string) (question : Question)
    : W string :=
  let commit_message := "New question created" in
  _create_new_question committer_id question commit_message.

Definition delete_question (committer_id qid : string) (force_deletion : bool)
    : W unit :=
  (question_model <- lift (QuestionModel_get qid true None) ;;
   match question_model with
   | None => wraise (ServiceError AttributeError)
   | Some m =>
       QuestionModel_delete m committer_id COMMIT_MESSAGE_QUESTION_DELETED
         force_deletion
   end)%world.

(** A world with nothing in it, and one holding question q1 as created. *)
Definition empty_state : State :=
  {| questions := ∅; memcache := ∅; summaries := ∅; summary_commits := [];
     user_data := ∅; error_log := [] |}.

Definition empty_world : World :=
  {| base := empty_state; question_rights := ∅; graveyard := ∅;
     removed_summaries := ∅ |}.

Definition created_world : World :=
  {| base := Sample.s_created "private";
     question_rights :=
       {[ "q1" := mkVersionedRights (mkRightsModel "q1" [] 1)
                    [mkCommit 1 "alice" (Some "Created new question rights")
                       [mkChange CMD_CREATE_NEW "" VNone]] ]};
     graveyard := ∅;
     removed_summaries := ∅ |}.

(** * Properties *)

Section Facts.
Context `{Collaborators}.

(** A read of the latest version, in closed form. *)
Lemma get_question_by_id_latest (s : State) (qid : string) :
  get_question_by_id qid true None s =
  match served s qid with
  | Some q => (Ok (Some q), filled s qid)
  | None => (Raise EntityNotFoundError, s)
  end.
Proof.
  unfold get_question_by_id, served, filled, served, bind, memcache_get,
    QuestionModel_get, memcache_set, ret, _get_question_memcache_key, latest_key.
  destruct (memcache s !! _) as [q|] eqn:Hc; [done|].
  destruct (questions s !! qid) as [vq|] eqn:Hq; done.
Qed.

(** After a read the cache serves what the read returned. *)
Lemma served_filled (s : State) (qid : string) (q : Question) :
  served s qid = Some q -> memcache (filled s qid) !! latest_key qid = Some q.
Proof.
  unfold served, filled, served.
  destruct (memcache s !! latest_key qid) as [q'|] eqn:Hc.
  - intros [= <-]. exact Hc.
  - destruct (questions s !! qid) as [vq|]; [|done].
    intros [= <-]. simpl. apply lookup_insert_eq.
Qed.

Lemma questions_filled (s : State) (qid : string) :
  questions (filled s qid) = questions s.
Proof.
  unfold filled. destruct (memcache s !! latest_key qid); [done|].
  by destruct (served s qid).
Qed.

Lemma user_data_filled (s : State) (qid : string) :
  user_data (filled s qid) = user_data s.
Proof.
  unfold filled. destruct (memcache s !! latest_key qid); [done|].
  by destruct (served s qid).
Qed.

Lemma served_idem (s : State) (qid : string) (q : Question) :
  served s qid = Some q -> served (filled s qid) qid = Some q.
Proof.
  intros Hs. unfold served at 1. by rewrite (served_filled _ _ _ Hs).
Qed.

(** The engine on an existing question: all edits, in list order. *)
Lemma apply_change_list_served (s : State) (qid : string)
    (cl : list QuestionChange) (q : Question) :
  served s qid = Some q ->
  apply_change_list qid cl s = (Ok (Some (fold_left apply_change cl q)), filled s qid).
Proof.
  intros Hs. unfold apply_change_list, bind.
  by rewrite get_question_by_id_latest, Hs.
Qed.

Lemma apply_change_list_missing (s : State) (qid : string)
    (cl : list QuestionChange) :
  served s qid = None ->
  apply_change_list qid cl s = (Raise EntityNotFoundError, s).
Proof.
  intros Hs. unfold apply_change_list, bind.
  by rewrite get_question_by_id_latest, Hs.
Qed.

(** *** The change-list engine *)

Lemma apply_change_language_code (q : Question) (c : QuestionChange) :
  cmd c = CMD_UPDATE_QUESTION_PROPERTY ->
  property_name c = QUESTION_PROPERTY_LANGUAGE_CODE ->
  apply_change q c = update_language_code q (new_value c).
Proof. intros Hc Hp. unfold apply_change. by rewrite Hc, Hp. Qed.

(** The branch for the question data tests [change.cmd] against a property
    name, under a test that fixed [change.cmd] to the update command: it is
    never taken. *)
Lemma apply_change_question_data (q : Question) (c : QuestionChange) :
  cmd c = CMD_UPDATE_QUESTION_PROPERTY ->
  property_name c = QUESTION_PROPERTY_QUESTION_DATA ->
  apply_change q c = q.
Proof. intros Hc Hp. unfold apply_change. by rewrite Hc, Hp. Qed.

Lemma apply_change_unrecognised (q : Question) (c : QuestionChange) :
  unrecognised c = true -> apply_change q c = q.
Proof.
  unfold unrecognised, apply_change. intros Hu.
  destruct (String.eqb (cmd c) CMD_UPDATE_QUESTION_PROPERTY) eqn:Hc; [|done].
  apply String.eqb_eq in Hc. rewrite Hc. simpl in Hu.
  destruct (String.eqb (property_name c) QUESTION_PROPERTY_LANGUAGE_CODE); [done|].
  reflexivity.
Qed.

Lemma fold_apply_change_skips (cl : list QuestionChange) (q : Question) :
  fold_left apply_change cl q =
  fold_left apply_change (List.filter (fun c => negb (unrecognised c)) cl) q.
Proof.
  revert q. induction cl as [|c cl IH]; intros q; [done|].
  simpl. destruct (unrecognised c) eqn:Hu; simpl.
  - rewrite (apply_change_unrecognised _ _ Hu). apply IH.
  - apply IH.
Qed.

(** Edits are applied one after the other, in list order. *)
Lemma apply_change_list_in_order (s : State) (qid : string)
    (cl1 cl2 : list QuestionChange) (q : Question) :
  served s qid = Some q ->
  fst (apply_change_list qid (cl1 ++ cl2) s) =
  Ok (Some (fold_left apply_change cl2 (fold_left apply_change cl1 q))).
Proof.
  intros Hs. rewrite (apply_change_list_served _ _ _ _ Hs). simpl.
  by rewrite fold_left_app.
Qed.

(** C3, at the failing input.  An update-property edit on the question data
    is applied to question q1 (payload P1): the engine returns the question
    with its payload still P1, not the edit's new value P2. *)
Theorem C3_question_data_edit_not_applied :
  exists q : Question,
    fst (apply_change_list "q1" [Sample.set_data "P2"] (Sample.s_created "private"))
      = Ok (Some q) /\
    question_data q = Sample.payload "P1" /\
    question_data q <> new_value (Sample.set_data "P2").
Proof.
  eexists. split; [vm_compute; reflexivity|]. split; [reflexivity|].
  vm_compute. intros [=].
Qed.

(** C4, as amended.  The engine raises no malformed-edit error.  For a
    question that exists it always returns the snapshot obtained by running
    every edit in list order, where an unrecognised edit (another command,
    or a property that is neither the language code nor the question data)
    leaves the snapshot as it is and the other edits are still applied; the
    stored questions are not modified. *)
Theorem C4_unrecognised_edits_skipped (s : State) (qid : string)
    (cl : list QuestionChange) (q : Question) :
  served s qid = Some q ->
  apply_change_list qid cl s
    = (Ok (Some (fold_left apply_change cl q)), filled s qid) /\
  fold_left apply_change cl q
    = fold_left apply_change (List.filter (fun c => negb (unrecognised c)) cl) q /\
  (forall (c : QuestionChange) (q' : Question),
     unrecognised c = true -> apply_change q' c = q') /\
  questions (filled s qid) = questions s.
Proof.
  intros Hs. split; [by apply apply_change_list_served|].
  split; [apply fold_apply_change_skips|].
  split; [intros c q' Hu; by apply apply_change_unrecognised|].
  apply questions_filled.
Qed.

End Facts.

(** C4, witness: a list with two unrecognised edits around a language
    edit, on question q1. *)
Lemma C4_witness :
  served (Sample.s_created "private") "q1"
    = Some (mkQuestion "q1" (Sample.payload "P1") 1 (VStr "en")) /\
  fst (apply_change_list "q1"
         [mkChange "delete_everything" "title" VNone; Sample.set_language "fr";
          mkChange CMD_UPDATE_QUESTION_PROPERTY "no_such_field" (VInt 7)]
         (Sample.s_created "private"))
    = Ok (Some (mkQuestion "q1" (Sample.payload "P1") 1 (VStr "fr"))).
Proof.
  split; [vm_compute; reflexivity|].
  rewrite (proj1 (C4_unrecognised_edits_skipped (Sample.s_created "private") "q1"
             [mkChange "delete_everything" "title" VNone; Sample.set_language "fr";
              mkChange CMD_UPDATE_QUESTION_PROPERTY "no_such_field" (VInt 7)]
             (mkQuestion "q1" (Sample.payload "P1") 1 (VStr "en"))
             ltac:(vm_compute; reflexivity))).
  vm_compute. reflexivity.
Defined.

(** C4, counterexample to the claim as stated: a change list made of an
    edit with an unknown command and an update of a field the question does
    not have is applied without any error; the engine returns the question. *)
Lemma C4_counterexample :
  forallb unrecognised
    [mkChange "delete_everything" "title" VNone;
     mkChange CMD_UPDATE_QUESTION_PROPERTY "no_such_field" (VInt 7)] = true /\
  fst (apply_change_list "q1"
         [mkChange "delete_everything" "title" VNone;
          mkChange CMD_UPDATE_QUESTION_PROPERTY "no_such_field" (VInt 7)]
         (Sample.s_created "private"))
    = Ok (Some (mkQuestion "q1" (Sample.payload "P1") 1 (VStr "en"))).
Proof. split; vm_compute; reflexivity. Qed.

(** *** Commits *)

Section Commit.
Context `{Collaborators}.

Lemma question_id_apply_change (q : Question) (c : QuestionChange) :
  question_id (apply_change q c) = question_id q.
Proof.
  unfold apply_change.
  repeat match goal with |- context [if ?b then _ else _] => destruct b end;
    reflexivity.
Qed.

Lemma question_id_fold (cl : list QuestionChange) (q : Question) :
  question_id (fold_left apply_change cl q) = question_id q.
Proof.
  revert q. induction cl as [|c cl IH]; intros q; [done|].
  simpl. by rewrite IH, question_id_apply_change.
Qed.

Lemma update_question_commits (s : State) (committer_id qid : string)
    (cl : list QuestionChange) (message : option string)
    (vq : VersionedQuestion) (q : Question) :
  questions s !! qid = Some vq ->
  model_id (current vq) = qid ->
  served s qid = Some q ->
  question_id q = qid ->
  cl <> [] ->
  validate (fold_left apply_change cl q) = true ->
  update_question committer_id qid cl message s
    = (Ok tt, after_update s committer_id qid cl message vq q).
Proof.
  intros Hq Hid Hs Hqid Hcl Hv.
  unfold update_question, bind. rewrite (apply_change_list_served _ _ _ _ Hs).
  unfold _save_question. destruct cl as [|c cl]; [done|].
  rewrite Hv. unfold bind, QuestionModel_get.
  rewrite question_id_fold, Hqid, questions_filled, Hq.
  unfold QuestionModel_commit, after_update, committed. simpl.
  by rewrite questions_filled, Hid, Hq.
Qed.

(** No path of an update raises a permission error. *)
Lemma update_question_never_denied (s : State) (committer_id qid : string)
    (cl : list QuestionChange) (message : option string) :
  fst (update_question committer_id qid cl message s) <> Raise PermissionDenied.
Proof.
  unfold update_question, bind, apply_change_list, bind.
  rewrite get_question_by_id_latest.
  destruct (served s qid) as [q|]; [|done].
  unfold _save_question, raise, ret. destruct cl as [|c cl]; [done|].
  destruct (validate (fold_left apply_change (c :: cl) q)); [|done].
  unfold bind, QuestionModel_get.
  destruct (questions (filled s qid) !! _); done.
Qed.

(** A successful update persists the new snapshot as version N+1 and does
    not touch the unversioned cache entry: after the call the entry holds
    the snapshot that a read served before the commit, and the next read of
    the latest version returns that snapshot from the cache. *)
Lemma update_question_keeps_cached_snapshot (s : State) (committer_id qid : string)
    (cl : list QuestionChange) (message : option string)
    (vq : VersionedQuestion) (q : Question) :
  questions s !! qid = Some vq ->
  model_id (current vq) = qid ->
  served s qid = Some q ->
  question_id q = qid ->
  cl <> [] ->
  validate (fold_left apply_change cl q) = true ->
  exists s' : State,
    update_question committer_id qid cl message s = (Ok tt, s') /\
    current <$> questions s' !! qid
      = Some (committed (current vq) (fold_left apply_change cl q)) /\
    memcache s' !! latest_key qid = Some q /\
    get_question_by_id qid true None s' = (Ok (Some q), s').
Proof.
  intros Hq Hid Hs Hqid Hcl Hv.
  exists (after_update s committer_id qid cl message vq q).
  split; [by apply update_question_commits|].
  assert (Hm : memcache (after_update s committer_id qid cl message vq q)
                 !! latest_key qid = Some q)
    by (simpl; by apply served_filled).
  split; [simpl; by rewrite lookup_insert_eq|].
  split; [exact Hm|].
  rewrite get_question_by_id_latest. unfold served, filled. by rewrite Hm.
Qed.

(** C5, as amended.  For a private question and a user who is neither its
    creator nor an admin or topic manager, the editing-permission check
    answers False; an update by that user is not subject to it: no update
    of that user raises a permission error, and given a non-empty change
    list whose result validates, the update succeeds and commits version
    N+1 with that user as committer. *)
Theorem C5_update_not_gated (s : State) (user_id qid : string)
    (cl : list QuestionChange) (message : option string)
    (sm : QuestionSummaryModel) (vq : VersionedQuestion) (q : Question) :
  summaries s !! qid = Some sm ->
  summary_status sm = ACTIVITY_STATUS_PRIVATE ->
  summary_creator_id sm <> user_id ->
  is_admin user_id = false ->
  is_topic_manager user_id = false ->
  questions s !! qid = Some vq ->
  model_id (current vq) = qid ->
  served s qid = Some q ->
  question_id q = qid ->
  cl <> [] ->
  validate (fold_left apply_change cl q) = true ->
  check_can_edit_question user_id qid s = (Ok false, s) /\
  (forall (cl' : list QuestionChange) (message' : option string),
     fst (update_question user_id qid cl' message' s) <> Raise PermissionDenied) /\
  exists s' : State,
    update_question user_id qid cl message s = (Ok tt, s') /\
    questions s' !! qid
      = Some {| current := committed (current vq) (fold_left apply_change cl q);
                snapshots := snapshots vq ++
                  [committed (current vq) (fold_left apply_change cl q)];
                commit_log := commit_log vq ++
                  [mkCommit (model_version (current vq) + 1) user_id message cl] |}.
Proof.
  intros Hsm Hst Hcr Ha Ht Hq Hid Hs Hqid Hcl Hv. split; [|split].
  - unfold check_can_edit_question, bind, get_question_summary_by_question_id,
      QuestionSummaryModel_get.
    rewrite Hsm, Hst, Ha, Ht. simpl.
    apply String.eqb_neq in Hcr. by rewrite Hcr.
  - intros cl' message'. apply update_question_never_denied.
  - exists (after_update s user_id qid cl message vq q).
    split; [by apply update_question_commits|].
    simpl. by rewrite lookup_insert_eq.
Qed.

End Commit.

(** C2, at the failing input.  Nothing is cached; alice updates question
    q1 (version 1, language en) to language fr, and the update succeeds.
    The store then holds version 2 with language fr, while a read of the
    latest version returns the version-1 snapshot with language en, served
    from the cache entry the update itself filled before committing. *)
Theorem C2_stale_read_after_update :
  exists s' : State,
    @update_question Sample.world "alice" "q1" [Sample.set_language "fr"]
      (Some "translate") (Sample.s_created "private") = (Ok tt, s') /\
    current <$> questions s' !! "q1"
      = Some (mkModel "q1" (Sample.payload "P1") 1 (VStr "fr") 2) /\
    fst (get_question_by_id "q1" true None s')
      = Ok (Some (mkQuestion "q1" (Sample.payload "P1") 1 (VStr "en"))) /\
    VStr "en" <> VStr "fr".
Proof.
  eexists. split; [vm_compute; reflexivity|].
  split; [vm_compute; reflexivity|].
  split; [vm_compute; reflexivity|]. intros [=].
Qed.

(** C5, witness: mallory, who did not create q1 and holds no role, updates
    the private question of alice. *)
Lemma C5_witness :
  @check_can_edit_question Sample.world "mallory" "q1" (Sample.s_created "private")
    = (Ok false, Sample.s_created "private") /\
  (forall (cl' : list QuestionChange) (message' : option string),
     fst (@update_question Sample.world "mallory" "q1" cl' message'
            (Sample.s_created "private")) <> Raise PermissionDenied) /\
  exists s' : State,
    @update_question Sample.world "mallory" "q1" [Sample.set_language "fr"]
      None (Sample.s_created "private") = (Ok tt, s') /\
    questions s' !! "q1"
      = Some (mkVersioned
                (mkModel "q1" (Sample.payload "P1") 1 (VStr "fr") 2)
                [Sample.model1; mkModel "q1" (Sample.payload "P1") 1 (VStr "fr") 2]
                [Sample.create_entry;
                 mkCommit 2 "mallory" None [Sample.set_language "fr"]]).
Proof.
  apply (@C5_update_not_gated Sample.world
           (Sample.s_created "private") "mallory" "q1"
           [Sample.set_language "fr"] None (Sample.summary_of "private")
           (mkVersioned Sample.model1 [Sample.model1] [Sample.create_entry])
           (mkQuestion "q1" (Sample.payload "P1") 1 (VStr "en")));
    try (vm_compute; reflexivity); discriminate.
Defined.

(** C5, counterexample to the claim as stated: the update by mallory on
    alice's private question raises nothing and changes the stored
    question, although the editing-permission check answers False. *)
Lemma C5_counterexample :
  summary_status (Sample.summary_of "private") = ACTIVITY_STATUS_PRIVATE /\
  summary_creator_id (Sample.summary_of "private") <> "mallory" /\
  @is_admin Sample.world "mallory" = false /\
  @is_topic_manager Sample.world "mallory" = false /\
  fst (@check_can_edit_question Sample.world "mallory" "q1"
         (Sample.s_created "private")) = Ok false /\
  exists s' : State,
    @update_question Sample.world "mallory" "q1" [Sample.set_language "fr"]
      None (Sample.s_created "private") = (Ok tt, s') /\
    current <$> questions s' !! "q1"
      = Some (mkModel "q1" (Sample.payload "P1") 1 (VStr "fr") 2) /\
    current <$> questions (Sample.s_created "private") !! "q1"
      = Some (mkModel "q1" (Sample.payload "P1") 1 (VStr "en") 1).
Proof.
  split; [reflexivity|]. split; [discriminate|].
  split; [reflexivity|]. split; [reflexivity|].
  split; [vm_compute; reflexivity|].
  eexists. split; [vm_compute; reflexivity|].
  split; vm_compute; reflexivity.
Qed.

(** *** Workflow *)

Section Workflow.
Context `{Collaborators}.

(** C7.  On a question that has a summary, the editing-permission check
    returns, and it returns True exactly when either the status is private
    or rejected and the user is the creator, or the user is an admin or a
    topic manager and the status is approved; on a pending question it
    returns False for every user.  The check changes nothing. *)
Theorem C7_check_can_edit_question_iff (s : State) (user_id qid : string)
    (sm : QuestionSummaryModel) :
  summaries s !! qid = Some sm ->
  exists b : bool,
    check_can_edit_question user_id qid s = (Ok b, s) /\
    (b = true <->
       ((summary_status sm = ACTIVITY_STATUS_PRIVATE \/
         summary_status sm = QUESTION_STATUS_REJECTED) /\
        summary_creator_id sm = user_id) \/
       ((is_admin user_id = true \/ is_topic_manager user_id = true) /\
        summary_status sm = QUESTION_STATUS_APPROVED)) /\
    (summary_status sm = QUESTION_STATUS_PENDING -> b = false).
Proof.
  intros Hsm.
  unfold check_can_edit_question, bind, get_question_summary_by_question_id,
    QuestionSummaryModel_get, ret.
  rewrite Hsm.
  unfold QUESTION_STATUS_PENDING, ACTIVITY_STATUS_PRIVATE,
    QUESTION_STATUS_REJECTED, QUESTION_STATUS_APPROVED.
  destruct (String.eqb_spec (summary_status sm) "pending") as [Hp|Hp].
  { exists false. rewrite Hp. split; [done|]. split; [|done].
    split; [done|]. intros [[[?|?] _]|[_ ?]]; discriminate. }
  destruct (String.eqb_spec (summary_status sm) "private") as [Hv|Hv];
    destruct (String.eqb_spec (summary_status sm) "rejected") as [Hr|Hr];
    destruct (String.eqb_spec (summary_creator_id sm) user_id) as [Hc|Hc];
    destruct (is_admin user_id) eqn:Ha;
    destruct (is_topic_manager user_id) eqn:Ht;
    destruct (String.eqb_spec (summary_status sm) "approved") as [Hd|Hd];
    simpl; eexists; (split; [reflexivity|]); (split; [|done]);
    (split; [intros Hb; try discriminate Hb; auto|]);
    try (intros _; reflexivity);
    intros [[[?|?] ?]|[[?|?] ?]]; congruence.
Qed.

(** C8.  On an existing summary: a committer holding the status-change
    action gets AlreadyPublished from publish when the status is approved
    and otherwise the status set to approved; gets AlreadyUnpublished from
    unpublish when the status is not approved and otherwise the status set
    to private; a committer without the action gets PermissionDenied from
    both.  Every failing call leaves the whole state, hence the summary, as
    it was.  A successful call stores the summary with the new status and
    its other fields as they were, and changes nothing else: no other
    summary, no question, no cache entry, no draft. *)
Theorem C8_publish_unpublish_guards (s : State) (qid committer_id : string)
    (sm : QuestionSummaryModel) :
  summaries s !! qid = Some sm ->
  summary_id sm = qid ->
  (holds_status_change committer_id = true ->
   summary_status sm = QUESTION_STATUS_APPROVED ->
   publish_question qid committer_id s = (Raise AlreadyPublished, s)) /\
  (holds_status_change committer_id = true ->
   summary_status sm <> QUESTION_STATUS_APPROVED ->
   exists s' : State,
     publish_question qid committer_id s = (Ok tt, s') /\
     summaries s' !! qid
       = Some {| summary_id := summary_id sm;
                 summary_creator_id := summary_creator_id sm;
                 summary_language_code := summary_language_code sm;
                 summary_status := "approved";
                 summary_question_html_data := summary_question_html_data sm |} /\
     (forall k, k <> qid -> summaries s' !! k = summaries s !! k) /\
     questions s' = questions s /\ memcache s' = memcache s /\
     user_data s' = user_data s /\ summary_commits s' = summary_commits s) /\
  (holds_status_change committer_id = true ->
   summary_status sm <> QUESTION_STATUS_APPROVED ->
   unpublish_question qid committer_id s = (Raise AlreadyUnpublished, s)) /\
  (holds_status_change committer_id = true ->
   summary_status sm = QUESTION_STATUS_APPROVED ->
   exists s' : State,
     unpublish_question qid committer_id s = (Ok tt, s') /\
     summaries s' !! qid
       = Some {| summary_id := summary_id sm;
                 summary_creator_id := summary_creator_id sm;
                 summary_language_code := summary_language_code sm;
                 summary_status := "private";
                 summary_question_html_data := summary_question_html_data sm |} /\
     (forall k, k <> qid -> summaries s' !! k = summaries s !! k) /\
     questions s' = questions s /\ memcache s' = memcache s /\
     user_data s' = user_data s /\ summary_commits s' = summary_commits s) /\
  (holds_status_change committer_id = false ->
   publish_question qid committer_id s = (Raise PermissionDenied, s) /\
   unpublish_question qid committer_id s = (Raise PermissionDenied, s)).
Proof.
  intros Hsm Hid.
  unfold publish_question, unpublish_question, bind,
    get_question_summary_by_question_id, QuestionSummaryModel_get,
    QuestionSummaryModel_put, raise.
  rewrite Hsm. simpl. rewrite Hid.
  split; [intros -> ->; reflexivity|].
  split.
  { intros -> Hst%String.eqb_neq. rewrite Hst. simpl.
    eexists. split; [reflexivity|]. simpl.
    split; [rewrite lookup_insert_eq; unfold with_status; by rewrite Hid|].
    split; [intros k Hk; by rewrite lookup_insert_ne|]. done. }
  split; [intros -> Hst%String.eqb_neq; by rewrite Hst|].
  split.
  { intros -> ->. simpl.
    eexists. split; [reflexivity|]. simpl.
    split; [rewrite lookup_insert_eq; unfold with_status; by rewrite Hid|].
    split; [intros k Hk; by rewrite lookup_insert_ne|]. done. }
  intros ->. by split.
Qed.

End Workflow.

(** C6, at the failing input.  mallory holds no action at all; the call
    to reject on the pending question q1 raises nothing and stores the
    summary with status rejected. *)
Theorem C6_reject_without_capability :
  @holds_status_change Sample.world "mallory" = false /\
  summary_status <$> summaries (Sample.s_created "pending") !! "q1"
    = Some QUESTION_STATUS_PENDING /\
  exists s' : State,
    reject_question "mallory" "q1" (Sample.s_created "pending") = (Ok tt, s') /\
    summary_status <$> summaries s' !! "q1" = Some QUESTION_STATUS_REJECTED.
Proof.
  split; [reflexivity|]. split; [vm_compute; reflexivity|].
  eexists. split; vm_compute; reflexivity.
Qed.

(** C7, witness: the creator alice on her private question q1. *)
Lemma C7_witness :
  exists b : bool,
    @check_can_edit_question Sample.world "alice" "q1" (Sample.s_created "private")
      = (Ok b, Sample.s_created "private") /\
    (b = true <->
       ((summary_status (Sample.summary_of "private") = ACTIVITY_STATUS_PRIVATE \/
         summary_status (Sample.summary_of "private") = QUESTION_STATUS_REJECTED) /\
        summary_creator_id (Sample.summary_of "private") = "alice") \/
       ((@is_admin Sample.world "alice" = true \/
         @is_topic_manager Sample.world "alice" = true) /\
        summary_status (Sample.summary_of "private") = QUESTION_STATUS_APPROVED)) /\
    (summary_status (Sample.summary_of "private") = QUESTION_STATUS_PENDING ->
     b = false).
Proof.
  apply (@C7_check_can_edit_question_iff Sample.world
           (Sample.s_created "private") "alice" "q1" (Sample.summary_of "private")).
  vm_compute; reflexivity.
Defined.

(** C8, witness: root, who holds the status-change action, publishes the
    private question q1 and the stored status is approved; unpublishing the
    private question is refused; mallory, who holds no action, is refused. *)
Lemma C8_witness :
  (exists s' : State,
     @publish_question Sample.world "q1" "root" (Sample.s_created "private")
       = (Ok tt, s') /\
     summaries s' !! "q1" = Some (Sample.summary_of "approved")) /\
  @unpublish_question Sample.world "q1" "root" (Sample.s_created "private")
    = (Raise AlreadyUnpublished, Sample.s_created "private") /\
  @publish_question Sample.world "q1" "mallory" (Sample.s_created "private")
    = (Raise PermissionDenied, Sample.s_created "private").
Proof.
  pose proof (@C8_publish_unpublish_guards Sample.world
                (Sample.s_created "private") "q1" "root"
                (Sample.summary_of "private")
                ltac:(vm_compute; reflexivity) eq_refl) as (_ & Hpub & Hunpub & _).
  pose proof (@C8_publish_unpublish_guards Sample.world
                (Sample.s_created "private") "q1" "mallory"
                (Sample.summary_of "private")
                ltac:(vm_compute; reflexivity) eq_refl) as (_ & _ & _ & _ & Hden).
  split.
  { destruct (Hpub eq_refl ltac:(discriminate)) as (s' & Hrun & Hst & _).
    exists s'. split; [exact Hrun | exact Hst]. }
  split; [apply Hunpub; [reflexivity|discriminate]|].
  apply Hden. reflexivity.
Defined.

(** *** Drafts *)

Section Drafts.
Context `{Collaborators}.

(** What the validity check compares: the schema version of the question
    read, against the version recorded in the draft. *)
Lemma is_version_of_draft_valid_served (s : State) (qid : string)
    (version : option Z) (q : Question) :
  served s qid = Some q ->
  is_version_of_draft_valid qid version s
    = (Ok (eq_opt_int (question_data_schema_version q) version), filled s qid).
Proof.
  intros Hs. unfold is_version_of_draft_valid, bind.
  by rewrite get_question_by_id_latest, Hs.
Qed.

(** A draft whose recorded version differs from the schema version of the
    question is not applied. *)
Lemma draft_not_applied_on_schema_mismatch (s : State) (qid user_id : string)
    (q : Question) (d : QuestionUserDataModel) :
  served s qid = Some q ->
  user_data s !! (user_id, qid) = Some d ->
  draft_change_list_question_version d <> Some (question_data_schema_version q) ->
  fst (get_question_with_draft_applied qid user_id s) = Ok (Some q).
Proof.
  intros Hs Hd Hne.
  unfold get_question_with_draft_applied, bind, QuestionUserDataModel_get.
  rewrite Hd, get_question_by_id_latest, Hs.
  destruct (draft_change_list d) as [[|c cs]|]; [done| |done].
  rewrite (is_version_of_draft_valid_served _ _ _ q (served_idem _ _ _ Hs)).
  destruct (draft_change_list_question_version d) as [v|]; simpl; [|done].
  destruct (Z.eqb_spec (question_data_schema_version q) v) as [Heq|]; [|done].
  destruct Hne. by rewrite Heq.
Qed.

Lemma set_user_data_insert_twice (s : State) (k : string * string)
    (d1 d2 : QuestionUserDataModel) :
  set_user_data (insert k d2) (set_user_data (insert k d1) s)
    = set_user_data (insert k d2) s.
Proof. unfold set_user_data. simpl. by rewrite insert_insert_eq. Qed.

(** The early return is passed without raising when there is no row, or
    the row's change list is absent or empty, or its timestamp is not
    after the supplied datetime. *)
Lemma newer_draft_exists_clear (row : option QuestionUserDataModel) (now : Z) :
  (row = None \/
   exists d, row = Some d /\
     (draft_change_list d = None \/ draft_change_list d = Some [] \/
      exists t, draft_change_list_last_updated d = Some t /\ t <= now)) ->
  newer_draft_exists row now = Ok false.
Proof.
  intros [->|(d & -> & Hd)]; [done|]. unfold newer_draft_exists.
  destruct Hd as [Hd|[Hd|(t & Ht & Hle)]].
  - by rewrite Hd.
  - by rewrite Hd.
  - destruct (truthy_list (draft_change_list d)); [|done].
    rewrite Ht. simpl. apply Z.ltb_ge in Hle. by rewrite Hle.
Qed.

(** The effect of a save that passes the early return, on a question that
    exists and whose edited copy validates. *)
Lemma create_or_update_draft_saves (s : State) (qid user_id : string)
    (cl : list QuestionChange) (question_version current_datetime : Z)
    (q : Question) :
  newer_draft_exists (user_data s !! (user_id, qid)) current_datetime = Ok false ->
  served s qid = Some q ->
  validate (fold_left apply_change cl q) = true ->
  create_or_update_draft qid user_id cl question_version current_datetime s
    = (Ok tt,
       set_user_data
         (insert (user_id, qid)
            {| draft_change_list := Some cl;
               draft_change_list_last_updated := Some current_datetime;
               draft_change_list_question_version := Some question_version;
               draft_change_list_id :=
                 current_draft_id (user_data s !! (user_id, qid)) + 1 |})
         (filled s qid)).
Proof.
  intros Hg Hs Hv.
  unfold create_or_update_draft, bind at 1, QuestionUserDataModel_get at 1.
  rewrite Hg. unfold bind at 1.
  rewrite (apply_change_list_served _ _ _ _ Hs), Hv.
  destruct (user_data s !! (user_id, qid)) as [d|]; [done|].
  unfold bind, QuestionUserDataModel_create, bind, QuestionUserDataModel_put, ret.
  by rewrite set_user_data_insert_twice.
Qed.

(** C9, as amended.  The save returns silently, with the state as it was,
    when a draft row exists that holds a non-empty change list and a
    timestamp strictly newer than the supplied datetime.  When there is no
    row, or the row's change list is absent or empty, or its timestamp is
    not newer, the save goes on: if the question exists and the change list
    applied to it validates, the row's change list, base version and
    timestamp are replaced by the supplied ones and its id grows by exactly
    one, counting from 0 when no row existed; if the edited question fails
    validation the save raises and the stored drafts are as before.  On a
    row that holds a non-empty change list and no timestamp the comparison
    itself raises a type error and nothing changes. *)
Theorem C9_draft_save_guard (s : State) (qid user_id : string)
    (cl : list QuestionChange) (question_version current_datetime : Z) :
  (forall (d : QuestionUserDataModel) (c : QuestionChange)
          (cs : list QuestionChange) (t : Z),
     user_data s !! (user_id, qid) = Some d ->
     draft_change_list d = Some (c :: cs) ->
     draft_change_list_last_updated d = Some t ->
     current_datetime < t ->
     create_or_update_draft qid user_id cl question_version current_datetime s
       = (Ok tt, s)) /\
  (forall q : Question,
     (user_data s !! (user_id, qid) = None \/
      exists d, user_data s !! (user_id, qid) = Some d /\
        (draft_change_list d = None \/ draft_change_list d = Some [] \/
         exists t, draft_change_list_last_updated d = Some t /\
                   t <= current_datetime)) ->
     served s qid = Some q ->
     validate (fold_left apply_change cl q) = true ->
     exists s' : State,
       create_or_update_draft qid user_id cl question_version current_datetime s
         = (Ok tt, s') /\
       user_data s' !! (user_id, qid)
         = Some {| draft_change_list := Some cl;
                   draft_change_list_last_updated := Some current_datetime;
                   draft_change_list_question_version := Some question_version;
                   draft_change_list_id :=
                     match user_data s !! (user_id, qid) with
                     | Some d => draft_change_list_id d + 1
                     | None => 0 + 1
                     end |}) /\
  (forall q : Question,
     (user_data s !! (user_id, qid) = None \/
      exists d, user_data s !! (user_id, qid) = Some d /\
        (draft_change_list d = None \/ draft_change_list d = Some [] \/
         exists t, draft_change_list_last_updated d = Some t /\
                   t <= current_datetime)) ->
     served s qid = Some q ->
     validate (fold_left apply_change cl q) = false ->
     exists s' : State,
       create_or_update_draft qid user_id cl question_version current_datetime s
         = (Raise ValidationError, s') /\
       user_data s' = user_data s) /\
  (forall (d : QuestionUserDataModel) (c : QuestionChange)
          (cs : list QuestionChange),
     user_data s !! (user_id, qid) = Some d ->
     draft_change_list d = Some (c :: cs) ->
     draft_change_list_last_updated d = None ->
     create_or_update_draft qid user_id cl question_version current_datetime s
       = (Raise ComparisonTypeError, s)).
Proof.
  split; [|split; [|split]].
  - intros d c cs t Hd Hcl Hlu Hlt.
    unfold create_or_update_draft, bind, QuestionUserDataModel_get.
    rewrite Hd. unfold newer_draft_exists, newer_than. rewrite Hcl, Hlu. simpl.
    apply Z.ltb_lt in Hlt. by rewrite Hlt.
  - intros q Hg%newer_draft_exists_clear Hs Hv. eexists. split.
    + by apply (create_or_update_draft_saves _ _ _ _ _ _ q).
    + simpl. rewrite lookup_insert_eq.
      by destruct (user_data s !! (user_id, qid)).
  - intros q Hg%newer_draft_exists_clear Hs Hv. exists (filled s qid). split.
    + unfold create_or_update_draft, bind at 1, QuestionUserDataModel_get at 1.
      rewrite Hg. unfold bind.
      by rewrite (apply_change_list_served _ _ _ _ Hs), Hv.
    + apply user_data_filled.
  - intros d c cs Hd Hcl Hlu.
    unfold create_or_update_draft, bind, QuestionUserDataModel_get.
    rewrite Hd. unfold newer_draft_exists, newer_than. by rewrite Hcl, Hlu.
Qed.

(** C10.  Discarding never raises, also when there is no draft row; a
    second discard leaves the state the first one produced; an existing
    row is kept with its change list, timestamp and base version cleared
    and its id retained, so that the next successful save continues the
    id sequence from it; without a row the state is unchanged. *)
Theorem C10_discard_draft_idempotent (s : State) (qid user_id : string) :
  exists s1 : State,
    discard_draft qid user_id s = (Ok tt, s1) /\
    discard_draft qid user_id s1 = (Ok tt, s1) /\
    match user_data s !! (user_id, qid) with
    | None => s1 = s
    | Some d =>
        user_data s1 !! (user_id, qid)
          = Some {| draft_change_list := None;
                    draft_change_list_last_updated := None;
                    draft_change_list_question_version := None;
                    draft_change_list_id := draft_change_list_id d |} /\
        forall (cl : list QuestionChange) (question_version now : Z) (q : Question),
          served s1 qid = Some q ->
          validate (fold_left apply_change cl q) = true ->
          exists s2 : State,
            create_or_update_draft qid user_id cl question_version now s1
              = (Ok tt, s2) /\
            draft_change_list_id <$> user_data s2 !! (user_id, qid)
              = Some (draft_change_list_id d + 1)
    end.
Proof.
  unfold discard_draft, bind, QuestionUserDataModel_get, QuestionUserDataModel_put, ret.
  destruct (user_data s !! (user_id, qid)) as [d|] eqn:Hd.
  - eexists. split; [reflexivity|].
    split; [|split].
    + simpl. rewrite lookup_insert_eq. simpl.
      by rewrite set_user_data_insert_twice.
    + simpl. by rewrite lookup_insert_eq.
    + intros cl qv now q Hs Hv. eexists. split.
      * apply (create_or_update_draft_saves _ _ _ _ _ _ q); [|done|done].
        simpl. by rewrite lookup_insert_eq.
      * cbn [user_data set_user_data]. by rewrite !lookup_insert_eq.
  - exists s. rewrite Hd. done.
Qed.

End Drafts.

(** The store and the drafts of [Sample.s_stale_draft] are those the
    service itself produces: bob saves his draft against version 1, then
    alice commits. *)
Lemma s_stale_draft_reached :
  exists s1 s2 : State,
    @create_or_update_draft Sample.world "q1" "bob" [Sample.set_language "de"] 1 100
      (Sample.s_created "private") = (Ok tt, s1) /\
    @update_question Sample.world "alice" "q1" [Sample.set_language "fr"]
      (Some "translate") s1 = (Ok tt, s2) /\
    questions s2 = questions Sample.s_stale_draft /\
    user_data s2 = user_data Sample.s_stale_draft /\
    summaries s2 = summaries Sample.s_stale_draft.
Proof.
  do 2 eexists. split; [vm_compute; reflexivity|].
  split; [vm_compute; reflexivity|].
  repeat split; vm_compute; reflexivity.
Qed.

(** C1, at the failing input.  Question q1 is at version 2 and bob's draft
    was recorded against version 1, so the draft is stale; its recorded
    version equals the schema version 1 of the question, which is what the
    validity check compares.  The draft is applied: the draft-aware read
    returns language de, the canonical read language fr.  A draft recorded
    against the current version 2 is judged invalid. *)
Theorem C1_stale_draft_applied :
  model_version <$> (current <$> questions Sample.s_stale_draft !! "q1") = Some 2 /\
  draft_change_list_question_version
    <$> user_data Sample.s_stale_draft !! ("bob", "q1") = Some (Some 1) /\
  fst (get_question_with_draft_applied "q1" "bob" Sample.s_stale_draft)
    = Ok (Some (mkQuestion "q1" (Sample.payload "P1") 1 (VStr "de"))) /\
  fst (get_question_by_id "q1" true None Sample.s_stale_draft)
    = Ok (Some (mkQuestion "q1" (Sample.payload "P1") 1 (VStr "fr"))) /\
  fst (is_version_of_draft_valid "q1" (Some 2) Sample.s_stale_draft) = Ok false.
Proof. repeat split; vm_compute; reflexivity. Qed.

(** C9, witness: a save at time 50 against bob's draft of time 100 is a
    no-op; a first save for bob on the fresh question creates the row with
    id 1; a save whose language code is not recognised raises; a save on a
    row with a change list and no timestamp raises the type error. *)
Lemma C9_witness :
  @create_or_update_draft Sample.world "q1" "bob" [Sample.set_language "en"] 2 50
    Sample.s_stale_draft = (Ok tt, Sample.s_stale_draft) /\
  (exists s' : State,
     @create_or_update_draft Sample.world "q1" "bob" [Sample.set_language "fr"] 1 50
       (Sample.s_created "private") = (Ok tt, s') /\
     user_data s' !! ("bob", "q1")
       = Some (mkUserData (Some [Sample.set_language "fr"]) (Some 50) (Some 1) (0 + 1))) /\
  (exists s' : State,
     @create_or_update_draft Sample.world "q1" "bob" [Sample.set_language "xx"] 1 50
       (Sample.s_created "private") = (Raise ValidationError, s') /\
     user_data s' = user_data (Sample.s_created "private")) /\
  @create_or_update_draft Sample.world "q1" "bob" [Sample.set_language "fr"] 1 50
    (set_user_data
       (insert ("bob", "q1") (mkUserData (Some [Sample.set_language "de"]) None (Some 1) 1))
       (Sample.s_created "private"))
    = (Raise ComparisonTypeError,
       set_user_data
         (insert ("bob", "q1")
            (mkUserData (Some [Sample.set_language "de"]) None (Some 1) 1))
         (Sample.s_created "private")).
Proof.
  split; [|split; [|split]].
  - apply (proj1 (@C9_draft_save_guard Sample.world Sample.s_stale_draft
                    "q1" "bob" [Sample.set_language "en"] 2 50)
             (mkUserData (Some [Sample.set_language "de"]) (Some 100) (Some 1) 1)
             (Sample.set_language "de") [] 100);
      [vm_compute; reflexivity | reflexivity | reflexivity | lia].
  - apply (proj1 (proj2 (@C9_draft_save_guard Sample.world
                    (Sample.s_created "private") "q1" "bob"
                    [Sample.set_language "fr"] 1 50))
             (mkQuestion "q1" (Sample.payload "P1") 1 (VStr "en")));
      [left; vm_compute; reflexivity | vm_compute; reflexivity
       | vm_compute; reflexivity].
  - apply (proj1 (proj2 (proj2 (@C9_draft_save_guard Sample.world
                    (Sample.s_created "private") "q1" "bob"
                    [Sample.set_language "xx"] 1 50)))
             (mkQuestion "q1" (Sample.payload "P1") 1 (VStr "en")));
      [left; vm_compute; reflexivity | vm_compute; reflexivity
       | vm_compute; reflexivity].
  - apply (proj2 (proj2 (proj2 (@C9_draft_save_guard Sample.world
                    (set_user_data
                       (insert ("bob", "q1")
                          (mkUserData (Some [Sample.set_language "de"]) None (Some 1) 1))
                       (Sample.s_created "private"))
                    "q1" "bob" [Sample.set_language "fr"] 1 50)))
             (mkUserData (Some [Sample.set_language "de"]) None (Some 1) 1)
             (Sample.set_language "de") []);
      [vm_compute; reflexivity | reflexivity | reflexivity].
Defined.

(** C9, counterexample to the claim as stated.  bob saves an empty change
    list at time 10, then a save stamped 5 arrives: the stored draft has
    the strictly newer timestamp 10, yet the late save overwrites it.  And
    a save that the early return does not stop may store nothing: with a
    change list whose result fails validation, or on a question that does
    not exist, it raises and leaves no draft row. *)
Lemma C9_counterexample :
  (exists s1 s2 : State,
     @create_or_update_draft Sample.world "q1" "bob" [] 1 10
       (Sample.s_created "private") = (Ok tt, s1) /\
     user_data s1 !! ("bob", "q1")
       = Some (mkUserData (Some []) (Some 10) (Some 1) 1) /\
     5 < 10 /\
     @create_or_update_draft Sample.world "q1" "bob" [Sample.set_language "fr"] 1 5 s1
       = (Ok tt, s2) /\
     user_data s2 !! ("bob", "q1")
       = Some (mkUserData (Some [Sample.set_language "fr"]) (Some 5) (Some 1) 2)) /\
  (exists s' : State,
     @create_or_update_draft Sample.world "q1" "bob" [Sample.set_language "xx"] 1 5
       (Sample.s_created "private") = (Raise ValidationError, s') /\
     user_data s' !! ("bob", "q1") = None) /\
  (exists s' : State,
     @create_or_update_draft Sample.world "q2" "bob" [Sample.set_language "fr"] 1 5
       (Sample.s_created "private") = (Raise EntityNotFoundError, s') /\
     user_data s' !! ("bob", "q2") = None).
Proof.
  split; [|split].
  - do 2 eexists. split; [vm_compute; reflexivity|].
    split; [vm_compute; reflexivity|]. split; [lia|].
    split; vm_compute; reflexivity.
  - eexists. split; vm_compute; reflexivity.
  - eexists. split; vm_compute; reflexivity.
Qed.

(** C10, witness: bob's draft (id 1) is discarded twice, and the next save
    gets id 2. *)
Lemma C10_witness :
  exists s1 : State,
    discard_draft "q1" "bob" Sample.s_stale_draft = (Ok tt, s1) /\
    discard_draft "q1" "bob" s1 = (Ok tt, s1) /\
    user_data s1 !! ("bob", "q1") = Some (mkUserData None None None 1) /\
    exists s2 : State,
      @create_or_update_draft Sample.world "q1" "bob" [Sample.set_language "fr"] 2 200 s1
        = (Ok tt, s2) /\
      draft_change_list_id <$> user_data s2 !! ("bob", "q1") = Some (1 + 1).
Proof.
  destruct (@C10_discard_draft_idempotent Sample.world Sample.s_stale_draft "q1" "bob")
    as (s1 & H1 & H2 & H3).
  assert (Hrow : user_data Sample.s_stale_draft !! ("bob", "q1")
                 = Some (mkUserData (Some [Sample.set_language "de"])
                           (Some 100) (Some 1) 1))
    by (vm_compute; reflexivity).
  rewrite Hrow in H3. destruct H3 as [H3 H4].
  exists s1. split; [exact H1|]. split; [exact H2|]. split; [exact H3|].
  apply (H4 [Sample.set_language "fr"] 2 200
           (mkQuestion "q1" (Sample.payload "P1") 1 (VStr "fr"))).
  - vm_compute in H1. injection H1 as <-. vm_compute; reflexivity.
  - vm_compute; reflexivity.
Defined.

(** * Further properties of the service *)

(** ** Cache keys and reads *)

Lemma pinned_key_not_latest (qid1 qid2 : string) (v : Z) :
  v <> 0 ->
  _get_question_memcache_key qid1 (Some v) <> _get_question_memcache_key qid2 None.
Proof.
  intros Hv%Z.eqb_neq. unfold _get_question_memcache_key. rewrite Hv. simpl.
  intros [=].
Qed.

(** The key of a pinned version never equals the key of the latest version
    of any question, the latest-version key determines the question id, and
    version 0 is keyed like no version. *)
Theorem memcache_keys_separate (qid1 qid2 : string) (v : Z) :
  v <> 0 ->
  _get_question_memcache_key qid1 (Some v) <> _get_question_memcache_key qid2 None /\
  (_get_question_memcache_key qid1 None = _get_question_memcache_key qid2 None ->
   qid1 = qid2) /\
  _get_question_memcache_key qid1 (Some 0) = _get_question_memcache_key qid1 None.
Proof.
  intros Hv. unfold _get_question_memcache_key.
  apply Z.eqb_neq in Hv. rewrite Hv. simpl.
  split; [intros [=]|]. split; [intros [=]; assumption | reflexivity].
Qed.

Lemma memcache_keys_separate_witness :
  _get_question_memcache_key "q1" (Some 2) <> _get_question_memcache_key "q1" None /\
  (_get_question_memcache_key "q1" None = _get_question_memcache_key "q1" None ->
   "q1" = "q1") /\
  _get_question_memcache_key "q1" (Some 0) = _get_question_memcache_key "q1" None.
Proof. apply (memcache_keys_separate "q1" "q1" 2). lia. Defined.

(** A read that returned a question is repeatable: the same read on the
    state it left returns the same question from the cache and changes
    nothing more.  A read never writes to the question store, the
    summaries or the drafts. *)
Theorem get_question_by_id_repeatable (s s' : State) (qid : string)
    (strict strict' : bool) (version : option Z) (q : Question) :
  get_question_by_id qid strict version s = (Ok (Some q), s') ->
  get_question_by_id qid strict' version s' = (Ok (Some q), s') /\
  questions s' = questions s /\
  summaries s' = summaries s /\
  user_data s' = user_data s.
Proof.
  unfold get_question_by_id, bind, memcache_get, memcache_set, ret.
  destruct (memcache s !! _get_question_memcache_key qid version) as [q0|] eqn:Hc.
  - intros [= <- <-]. by rewrite Hc.
  - unfold QuestionModel_get.
    destruct (match questions s !! qid with
              | Some vq => _ | None => None end) as [m|]; [|by destruct strict].
    intros [= <- <-]. simpl. by rewrite lookup_insert_eq.
Qed.

Lemma get_question_by_id_repeatable_witness :
  get_question_by_id "q1" false (Some 1)
    (set_memcache (insert "question-version:q1:1" (get_question_from_model Sample.model1))
       (Sample.s_created "private"))
    = (Ok (Some (get_question_from_model Sample.model1)),
       set_memcache (insert "question-version:q1:1" (get_question_from_model Sample.model1))
         (Sample.s_created "private")).
Proof.
  apply (get_question_by_id_repeatable (Sample.s_created "private") _ "q1"
           true false (Some 1) (get_question_from_model Sample.model1)).
  vm_compute; reflexivity.
Defined.

(** A question that is neither cached nor stored: a strict read raises, a
    lenient read returns None, and neither leaves any trace: the miss is
    not cached. *)
Theorem get_question_by_id_missing (s : State) (qid : string) (version : option Z) :
  memcache s !! _get_question_memcache_key qid version = None ->
  questions s !! qid = None ->
  get_question_by_id qid true version s = (Raise EntityNotFoundError, s) /\
  get_question_by_id qid false version s = (Ok None, s).
Proof.
  intros Hc Hq.
  unfold get_question_by_id, bind, memcache_get, QuestionModel_get, ret.
  by rewrite Hc, Hq.
Qed.

Lemma get_question_by_id_missing_witness :
  get_question_by_id "q9" true (Some 3) (Sample.s_created "private")
    = (Raise EntityNotFoundError, Sample.s_created "private") /\
  get_question_by_id "q9" false (Some 3) (Sample.s_created "private")
    = (Ok None, Sample.s_created "private").
Proof.
  apply (get_question_by_id_missing (Sample.s_created "private") "q9" (Some 3));
    vm_compute; reflexivity.
Defined.

Lemma find_app_last {A} (f : A -> bool) (l : list A) (x : A) :
  (forall y, In y l -> f y = false) -> f x = true ->
  List.find f (l ++ [x]) = Some x.
Proof.
  intros Hl Hx. induction l as [|y l IH]; simpl.
  - by rewrite Hx.
  - rewrite (Hl y (or_introl eq_refl)). apply IH.
    intros z Hz. apply Hl. by right.
Qed.

Section PinnedRead.
Context `{Collaborators}.

(** After a successful update that committed version N+1, a read pinned to
    version N+1 returns the committed question, provided no earlier
    snapshot carries that version number and the pinned key is not cached;
    the read of the latest version on the same state still returns the
    question as it was before the commit. *)
Theorem pinned_read_after_update (s : State) (committer_id qid : string)
    (cl : list QuestionChange) (message : option string)
    (vq : VersionedQuestion) (q : Question) :
  questions s !! qid = Some vq ->
  model_id (current vq) = qid ->
  served s qid = Some q ->
  question_id q = qid ->
  cl <> [] ->
  validate (fold_left apply_change cl q) = true ->
  model_version (current vq) + 1 <> 0 ->
  (forall m, In m (snapshots vq) -> model_version m <> model_version (current vq) + 1) ->
  memcache s !! _get_question_memcache_key qid (Some (model_version (current vq) + 1))
    = None ->
  exists s' : State,
    update_question committer_id qid cl message s = (Ok tt, s') /\
    fst (get_question_by_id qid true (Some (model_version (current vq) + 1)) s')
      = Ok (Some (fold_left apply_change cl q)) /\
    fst (get_question_by_id qid true None s') = Ok (Some q).
Proof.
  intros Hq Hid Hs Hqid Hcl Hv Hnz Hfresh Hc.
  exists (after_update s committer_id qid cl message vq q).
  split; [by apply update_question_commits|].
  pose proof (pinned_key_not_latest qid qid _ Hnz) as Hne.
  split.
  - unfold get_question_by_id, bind, memcache_get, QuestionModel_get,
      memcache_set, ret. cbv zeta.
    assert (Hmiss : memcache (after_update s committer_id qid cl message vq q)
              !! _get_question_memcache_key qid (Some (model_version (current vq) + 1))
              = None).
    { simpl. unfold filled.
      destruct (memcache s !! latest_key qid); [exact Hc|].
      rewrite Hs. simpl. rewrite lookup_insert_ne; [exact Hc|].
      intros Heq. apply Hne. symmetry. exact Heq. }
    rewrite Hmiss. simpl. rewrite lookup_insert_eq. simpl.
    rewrite find_app_last.
    + simpl. f_equal. f_equal. unfold get_question_from_model, committed. simpl.
      rewrite Hid, <- Hqid, <- (question_id_fold cl q).
      by destruct (fold_left apply_change cl q).
    + intros m Hm. apply Z.eqb_neq. by apply Hfresh.
    + simpl. apply Z.eqb_refl.
  - rewrite get_question_by_id_latest. unfold served.
    assert (Hm : memcache (after_update s committer_id qid cl message vq q)
                   !! latest_key qid = Some q)
      by (simpl; by apply served_filled).
    by rewrite Hm.
Qed.

End PinnedRead.

Lemma pinned_read_after_update_witness :
  exists s' : State,
    @update_question Sample.world "alice" "q1" [Sample.set_language "fr"]
      (Some "translate") (Sample.s_created "private") = (Ok tt, s') /\
    fst (get_question_by_id "q1" true
           (Some (model_version
                    (current (mkVersioned Sample.model1 [Sample.model1]
                                [Sample.create_entry])) + 1)) s')
      = Ok (Some (fold_left apply_change [Sample.set_language "fr"]
                    (mkQuestion "q1" (Sample.payload "P1") 1 (VStr "en")))) /\
    fst (get_question_by_id "q1" true None s')
      = Ok (Some (mkQuestion "q1" (Sample.payload "P1") 1 (VStr "en"))).
Proof.
  apply (@pinned_read_after_update Sample.world
           (Sample.s_created "private") "alice" "q1"
           [Sample.set_language "fr"] (Some "translate")
           (mkVersioned Sample.model1 [Sample.model1] [Sample.create_entry])
           (mkQuestion "q1" (Sample.payload "P1") 1 (VStr "en")));
    try (vm_compute; reflexivity); try discriminate.
  intros m [<-|[]]. discriminate.
Defined.

(** ** Reading several questions *)

Lemma get_questions_loop_all (s : State) (ms : list QuestionModel)
    (acc : list Question) :
  get_questions_loop (map Some ms) acc s
    = (Ok (acc ++ map get_question_from_model ms), s).
Proof.
  revert acc. induction ms as [|m ms IH]; intros acc; simpl.
  - by rewrite app_nil_r.
  - rewrite IH. by rewrite <- app_assoc.
Qed.

Lemma get_questions_loop_none (s : State) (l : list (option QuestionModel))
    (acc : list Question) :
  In None l -> get_questions_loop l acc s = (Raise AttributeError, s).
Proof.
  revert acc. induction l as [|[m|] l IH]; intros acc Hin; simpl.
  - destruct Hin.
  - apply IH. destruct Hin as [Hin|Hin]; [discriminate|exact Hin].
  - reflexivity.
Qed.

(** When every requested id is stored, the questions come back one per id,
    in the order asked, built from the stored current models, whatever the
    cache holds; the state is unchanged. *)
Theorem get_questions_by_ids_all_stored (s : State) (ids : list string)
    (vqs : list VersionedQuestion) :
  Forall2 (fun i vq => questions s !! i = Some vq) ids vqs ->
  get_questions_by_ids ids s
    = (Ok (map (fun vq => get_question_from_model (current vq)) vqs), s).
Proof.
  intros Hall. unfold get_questions_by_ids, bind, QuestionModel_get_multi.
  assert (Hmap : map (fun i => current <$> questions s !! i) ids
                 = map Some (map current vqs)).
  { induction Hall as [|i vq ids vqs Hi _ IH]; [done|].
    simpl. by rewrite Hi, IH. }
  rewrite Hmap, get_questions_loop_all. simpl. by rewrite map_map.
Qed.

Lemma get_questions_by_ids_all_stored_witness :
  get_questions_by_ids ["q1"; "q1"]
    (set_memcache (insert (latest_key "q1")
                     (mkQuestion "q1" (Sample.payload "P1") 1 (VStr "en")))
       Sample.s_stale_draft)
    = (Ok (map (fun vq => get_question_from_model (current vq))
             [mkVersioned Sample.model2 [Sample.model1; Sample.model2]
                [Sample.create_entry;
                 mkCommit 2 "alice" (Some "translate") [Sample.set_language "fr"]];
              mkVersioned Sample.model2 [Sample.model1; Sample.model2]
                [Sample.create_entry;
                 mkCommit 2 "alice" (Some "translate") [Sample.set_language "fr"]]]),
       set_memcache (insert (latest_key "q1")
                       (mkQuestion "q1" (Sample.payload "P1") 1 (VStr "en")))
         Sample.s_stale_draft).
Proof.
  apply get_questions_by_ids_all_stored.
  repeat constructor; vm_compute; reflexivity.
Defined.

(** When one of the requested ids is not stored the call raises an
    attribute error instead of returning None in its place, and the state
    is unchanged. *)
Theorem get_questions_by_ids_missing_id (s : State) (ids : list string) (i : string) :
  In i ids ->
  questions s !! i = None ->
  get_questions_by_ids ids s = (Raise AttributeError, s).
Proof.
  intros Hin Hi. unfold get_questions_by_ids, bind, QuestionModel_get_multi.
  apply get_questions_loop_none.
  apply in_map_iff. exists i. split; [by rewrite Hi | exact Hin].
Qed.

Lemma get_questions_by_ids_missing_id_witness :
  get_questions_by_ids ["q1"; "q9"] (Sample.s_created "private")
    = (Raise AttributeError, Sample.s_created "private").
Proof.
  apply (get_questions_by_ids_missing_id (Sample.s_created "private")
           ["q1"; "q9"] "q9").
  - right. left. reflexivity.
  - vm_compute; reflexivity.
Defined.

(** ** What the engine can and cannot change *)

Lemma apply_change_fields (q : Question) (c : QuestionChange) :
  question_data (apply_change q c) = question_data q /\
  question_data_schema_version (apply_change q c) = question_data_schema_version q /\
  language_code (apply_change q c)
    = if is_language_edit c then new_value c else language_code q.
Proof.
  unfold apply_change, is_language_edit.
  destruct (String.eqb (cmd c) CMD_UPDATE_QUESTION_PROPERTY) eqn:Hc; [|done].
  apply String.eqb_eq in Hc. rewrite Hc. simpl.
  by destruct (String.eqb (property_name c) QUESTION_PROPERTY_LANGUAGE_CODE).
Qed.

Lemma fold_apply_change_fields (cl : list QuestionChange) (q : Question) :
  question_data (fold_left apply_change cl q) = question_data q /\
  question_data_schema_version (fold_left apply_change cl q)
    = question_data_schema_version q /\
  language_code (fold_left apply_change cl q)
    = match List.find is_language_edit (rev cl) with
      | Some c => new_value c
      | None => language_code q
      end.
Proof.
  revert q. induction cl as [|c cl IH] using rev_ind; intros q; [done|].
  rewrite fold_left_app, rev_app_distr. simpl.
  destruct (apply_change_fields (fold_left apply_change cl q) c) as (Hd & Hv & Hl).
  destruct (IH q) as (IHd & IHv & IHl).
  rewrite Hd, Hv, Hl, IHd, IHv, IHl.
  by destruct (is_language_edit c).
Qed.

(** Whatever the change list, the question the engine returns has the id,
    the question data and the schema version of the question it read; its
    language code is the new value of the last language-code edit of the
    list, or the one read when the list has no such edit. *)
Theorem apply_change_list_effect (s : State) (qid : string)
    (cl : list QuestionChange) (q : Question) :
  served s qid = Some q ->
  exists q' : Question,
    fst (apply_change_list qid cl s) = Ok (Some q') /\
    question_id q' = question_id q /\
    question_data q' = question_data q /\
    question_data_schema_version q' = question_data_schema_version q /\
    language_code q'
      = match List.find is_language_edit (rev cl) with
        | Some c => new_value c
        | None => language_code q
        end.
Proof.
  intros Hs. exists (fold_left apply_change cl q).
  rewrite (apply_change_list_served _ _ _ _ Hs).
  split; [done|]. split; [apply question_id_fold|].
  apply fold_apply_change_fields.
Qed.

Lemma apply_change_list_effect_witness :
  exists q' : Question,
    fst (apply_change_list "q1"
           [Sample.set_language "fr"; Sample.set_data "P2"; Sample.set_language "de";
            mkChange "other" "language_code" (VStr "xx")]
           (Sample.s_created "private")) = Ok (Some q') /\
    question_id q' = question_id (mkQuestion "q1" (Sample.payload "P1") 1 (VStr "en")) /\
    question_data q' = question_data (mkQuestion "q1" (Sample.payload "P1") 1 (VStr "en")) /\
    question_data_schema_version q' = 1 /\
    language_code q'
      = match List.find is_language_edit
                (rev [Sample.set_language "fr"; Sample.set_data "P2";
                      Sample.set_language "de";
                      mkChange "other" "language_code" (VStr "xx")]) with
        | Some c => new_value c
        | None => VStr "en"
        end.
Proof.
  apply (apply_change_list_effect (Sample.s_created "private") "q1" _
           (mkQuestion "q1" (Sample.payload "P1") 1 (VStr "en"))).
  vm_compute; reflexivity.
Defined.

(** ** Updates *)

Section Updates.
Context `{Collaborators}.

(** An update writes nothing but the question store and the cache: the
    summaries (so also the summary's language code), their commit log and
    the drafts are as before whatever the outcome; and when the update
    raises, the question store is as before too. *)
Theorem update_question_footprint (s s' : State) (committer_id qid : string)
    (cl : list QuestionChange) (message : option string) (o : outcome unit) :
  update_question committer_id qid cl message s = (o, s') ->
  summaries s' = summaries s /\
  summary_commits s' = summary_commits s /\
  user_data s' = user_data s /\
  (forall e, o = Raise e -> questions s' = questions s).
Proof.
  unfold update_question, bind, apply_change_list, bind.
  rewrite get_question_by_id_latest.
  destruct (served s qid) as [q|] eqn:Hs.
  2: { intros [= <- <-]. done. }
  assert (Hf : summaries (filled s qid) = summaries s /\
               summary_commits (filled s qid) = summary_commits s /\
               user_data (filled s qid) = user_data s /\
               questions (filled s qid) = questions s).
  { unfold filled. destruct (memcache s !! latest_key qid); [done|].
    by rewrite Hs. }
  destruct Hf as (Hf1 & Hf2 & Hf3 & Hf4).
  unfold _save_question, raise, ret. destruct cl as [|c cl].
  { intros [= <- <-]. done. }
  destruct (validate (fold_left apply_change (c :: cl) q)).
  2: { intros [= <- <-]. done. }
  unfold bind, QuestionModel_get.
  destruct (questions (filled s qid) !! _).
  2: { intros [= <- <-]. done. }
  unfold QuestionModel_commit. intros [= <- <-]. simpl.
  repeat split; done.
Qed.

(** Why an update raises: a question that is neither cached nor stored is
    not found and nothing changes; on a question that exists an empty
    change list is rejected as invalid and a change list whose result does
    not validate raises the validation error, both before the store is
    read for the commit. *)
Theorem update_question_errors (s : State) (committer_id qid : string)
    (cl : list QuestionChange) (message : option string) :
  (served s qid = None ->
   update_question committer_id qid cl message s = (Raise EntityNotFoundError, s)) /\
  (forall q, served s qid = Some q ->
   update_question committer_id qid [] message s
     = (Raise InvalidChangeList, filled s qid)) /\
  (forall q, served s qid = Some q -> cl <> [] ->
   validate (fold_left apply_change cl q) = false ->
   update_question committer_id qid cl message s
     = (Raise ValidationError, filled s qid)).
Proof.
  split; [|split].
  - intros Hs. unfold update_question, bind.
    by rewrite (apply_change_list_missing _ _ _ Hs).
  - intros q Hs. unfold update_question, bind.
    by rewrite (apply_change_list_served _ _ _ _ Hs).
  - intros q Hs Hcl Hv. unfold update_question, bind.
    rewrite (apply_change_list_served _ _ _ _ Hs).
    unfold _save_question. destruct cl as [|c cl]; [done|]. by rewrite Hv.
Qed.

(** Two updates in a row do not compose: the second one starts from the
    question the cache served before the first, so the store ends with
    version N+2 holding the second change list applied to that question;
    the edits of the first update are no longer in the current model. *)
Theorem second_update_overrides_first (s : State) (c1 c2 qid : string)
    (cl1 cl2 : list QuestionChange) (m1 m2 : option string)
    (vq : VersionedQuestion) (q : Question) :
  questions s !! qid = Some vq ->
  model_id (current vq) = qid ->
  served s qid = Some q ->
  question_id q = qid ->
  cl1 <> [] -> cl2 <> [] ->
  validate (fold_left apply_change cl1 q) = true ->
  validate (fold_left apply_change cl2 q) = true ->
  exists s1 s2 : State,
    update_question c1 qid cl1 m1 s = (Ok tt, s1) /\
    update_question c2 qid cl2 m2 s1 = (Ok tt, s2) /\
    current <$> questions s2 !! qid
      = Some {| model_id := qid;
                model_question_data := question_data (fold_left apply_change cl2 q);
                model_question_data_schema_version :=
                  question_data_schema_version (fold_left apply_change cl2 q);
                model_language_code := language_code (fold_left apply_change cl2 q);
                model_version := model_version (current vq) + 2 |}.
Proof.
  intros Hq Hid Hs Hqid Hcl1 Hcl2 Hv1 Hv2.
  set (vq1 := {| current := committed (current vq) (fold_left apply_change cl1 q);
                 snapshots := snapshots vq ++
                   [committed (current vq) (fold_left apply_change cl1 q)];
                 commit_log := commit_log vq ++
                   [mkCommit (model_version (current vq) + 1) c1 m1 cl1] |}).
  exists (after_update s c1 qid cl1 m1 vq q).
  exists (after_update (after_update s c1 qid cl1 m1 vq q) c2 qid cl2 m2 vq1 q).
  split; [by apply update_question_commits|].
  split.
  - apply update_question_commits; try done.
    + simpl. apply lookup_insert_eq.
    + unfold served. simpl. by rewrite (served_filled _ _ _ Hs).
  - simpl. rewrite lookup_insert_eq. simpl. unfold committed. simpl.
    rewrite Hid. do 2 f_equal. lia.
Qed.

(** A run of updates, each with a non-empty change list whose result
    validates, succeeds as a whole, moves the version forward by one per
    update, and adds one snapshot and one commit-log entry per update.
    Each result is the change list applied to the question served before
    the run, the one every update of the run reads from the cache. *)
Theorem update_each_counts (calls : list (string * list QuestionChange * option string))
    (s : State) (qid : string) (vq : VersionedQuestion) (q : Question) :
  Forall (fun c => snd (fst c) <> [] /\
                   validate (fold_left apply_change (snd (fst c)) q) = true) calls ->
  questions s !! qid = Some vq ->
  model_id (current vq) = qid ->
  served s qid = Some q ->
  question_id q = qid ->
  exists (s' : State) (vq' : VersionedQuestion),
    update_each qid calls s = (Ok tt, s') /\
    questions s' !! qid = Some vq' /\
    model_version (current vq') = model_version (current vq) + Z.of_nat (length calls) /\
    length (snapshots vq') = (length (snapshots vq) + length calls)%nat /\
    length (commit_log vq') = (length (commit_log vq) + length calls)%nat.
Proof.
  intros Hne. revert s vq.
  induction Hne as [|[[c cl] m] calls [Hcl Hval] _ IH]; intros s vq Hq Hid Hs Hqid.
  - exists s, vq. simpl. repeat split; try done; lia.
  - simpl in Hcl, Hval. simpl update_each. unfold bind.
    rewrite (update_question_commits s c qid cl m vq q Hq Hid Hs Hqid Hcl Hval).
    destruct (IH (after_update s c qid cl m vq q)
                {| current := committed (current vq) (fold_left apply_change cl q);
                   snapshots := snapshots vq ++
                     [committed (current vq) (fold_left apply_change cl q)];
                   commit_log := commit_log vq ++
                     [mkCommit (model_version (current vq) + 1) c m cl] |})
      as (s' & vq' & Hrun & Hq' & Hver & Hsn & Hlog).
    + simpl. apply lookup_insert_eq.
    + exact Hid.
    + unfold served. simpl. by rewrite (served_filled _ _ _ Hs).
    + exact Hqid.
    + exists s', vq'. split; [exact Hrun|]. split; [exact Hq'|].
      simpl in Hver, Hsn, Hlog. rewrite !length_app in *. simpl in *.
      repeat split; lia.
Qed.

End Updates.

Lemma update_question_footprint_witness :
  summaries (snd (@update_question Sample.world "alice" "q1" [Sample.set_language "xx"]
                    None (Sample.s_created "private")))
    = summaries (Sample.s_created "private") /\
  summary_commits (snd (@update_question Sample.world "alice" "q1"
                          [Sample.set_language "xx"] None (Sample.s_created "private")))
    = summary_commits (Sample.s_created "private") /\
  user_data (snd (@update_question Sample.world "alice" "q1" [Sample.set_language "xx"]
                    None (Sample.s_created "private")))
    = user_data (Sample.s_created "private") /\
  (forall e,
     fst (@update_question Sample.world "alice" "q1" [Sample.set_language "xx"]
            None (Sample.s_created "private")) = Raise e ->
     questions (snd (@update_question Sample.world "alice" "q1"
                       [Sample.set_language "xx"] None (Sample.s_created "private")))
       = questions (Sample.s_created "private")).
Proof.
  apply (@update_question_footprint Sample.world (Sample.s_created "private") _
           "alice" "q1" [Sample.set_language "xx"] None).
  vm_compute; reflexivity.
Defined.

Lemma update_question_errors_witness :
  @update_question Sample.world "alice" "q9" [Sample.set_language "fr"] None
    (Sample.s_created "private")
    = (Raise EntityNotFoundError, Sample.s_created "private") /\
  @update_question Sample.world "alice" "q1" [] None (Sample.s_created "private")
    = (Raise InvalidChangeList, filled (Sample.s_created "private") "q1") /\
  @update_question Sample.world "alice" "q1" [Sample.set_language "xx"] None
    (Sample.s_created "private")
    = (Raise ValidationError, filled (Sample.s_created "private") "q1").
Proof.
  split; [|split].
  - apply (proj1 (@update_question_errors Sample.world (Sample.s_created "private")
                    "alice" "q9" [Sample.set_language "fr"] None)).
    vm_compute; reflexivity.
  - apply (proj1 (proj2 (@update_question_errors Sample.world
                    (Sample.s_created "private") "alice" "q1" [] None))
             (mkQuestion "q1" (Sample.payload "P1") 1 (VStr "en"))).
    vm_compute; reflexivity.
  - apply (proj2 (proj2 (@update_question_errors Sample.world
                    (Sample.s_created "private") "alice" "q1"
                    [Sample.set_language "xx"] None))
             (mkQuestion "q1" (Sample.payload "P1") 1 (VStr "en")));
      [vm_compute; reflexivity | discriminate | vm_compute; reflexivity].
Defined.

Lemma second_update_overrides_first_witness :
  exists s1 s2 : State,
    @update_question Sample.world "alice" "q1" [Sample.set_language "fr"]
      (Some "translate") (Sample.s_created "private") = (Ok tt, s1) /\
    @update_question Sample.world "bob" "q1" [mkChange "noop" "" VNone]
      (Some "touch") s1 = (Ok tt, s2) /\
    current <$> questions s2 !! "q1"
      = Some {| model_id := "q1";
                model_question_data :=
                  question_data (fold_left apply_change [mkChange "noop" "" VNone]
                                   (mkQuestion "q1" (Sample.payload "P1") 1 (VStr "en")));
                model_question_data_schema_version :=
                  question_data_schema_version
                    (fold_left apply_change [mkChange "noop" "" VNone]
                       (mkQuestion "q1" (Sample.payload "P1") 1 (VStr "en")));
                model_language_code :=
                  language_code (fold_left apply_change [mkChange "noop" "" VNone]
                                   (mkQuestion "q1" (Sample.payload "P1") 1 (VStr "en")));
                model_version :=
                  model_version (current (mkVersioned Sample.model1 [Sample.model1]
                                            [Sample.create_entry])) + 2 |}.
Proof.
  apply (@second_update_overrides_first Sample.world (Sample.s_created "private")
           "alice" "bob" "q1" [Sample.set_language "fr"] [mkChange "noop" "" VNone]
           (Some "translate") (Some "touch")
           (mkVersioned Sample.model1 [Sample.model1] [Sample.create_entry])
           (mkQuestion "q1" (Sample.payload "P1") 1 (VStr "en")));
    try (vm_compute; reflexivity); discriminate.
Defined.

Lemma update_each_counts_witness :
  exists (s' : State) (vq' : VersionedQuestion),
    @update_each Sample.world "q1"
      [("alice", [Sample.set_language "fr"], None);
       ("bob", [Sample.set_data "P2"], Some "text");
       ("alice", [Sample.set_language "de"], None)]
      (Sample.s_created "private") = (Ok tt, s') /\
    questions s' !! "q1" = Some vq' /\
    model_version (current vq')
      = model_version (current (mkVersioned Sample.model1 [Sample.model1]
                                  [Sample.create_entry])) + Z.of_nat 3 /\
    length (snapshots vq') = (1 + 3)%nat /\
    length (commit_log vq') = (1 + 3)%nat.
Proof.
  apply (@update_each_counts Sample.world
           [("alice", [Sample.set_language "fr"], None);
            ("bob", [Sample.set_data "P2"], Some "text");
            ("alice", [Sample.set_language "de"], None)]
           (Sample.s_created "private") "q1"
           (mkVersioned Sample.model1 [Sample.model1] [Sample.create_entry])
           (mkQuestion "q1" (Sample.payload "P1") 1 (VStr "en")));
    try (vm_compute; reflexivity).
  repeat constructor; try discriminate; vm_compute; reflexivity.
Defined.

(** ** Workflow and editing rights *)

Section WorkflowMore.
Context `{Collaborators}.

(** On a question without a summary every workflow call raises and leaves
    the state as it was: publish and unpublish report that the question
    does not exist, before looking at the committer's actions; the review
    calls and the editing check fail on the missing object. *)
Theorem workflow_without_summary (s : State) (qid user_id : string) :
  summaries s !! qid = None ->
  publish_question qid user_id s = (Raise QuestionDoesNotExist, s) /\
  unpublish_question qid user_id s = (Raise QuestionDoesNotExist, s) /\
  send_question_for_review user_id qid s = (Raise AttributeError, s) /\
  reject_question user_id qid s = (Raise AttributeError, s) /\
  check_can_edit_question user_id qid s = (Raise AttributeError, s).
Proof.
  intros Hn.
  unfold publish_question, unpublish_question, send_question_for_review,
    reject_question, check_can_edit_question, bind,
    get_question_summary_by_question_id, QuestionSummaryModel_get.
  by rewrite Hn.
Qed.

Lemma check_can_edit_question_status (s : State) (user_id qid : string)
    (sm : QuestionSummaryModel) :
  summaries s !! qid = Some sm ->
  check_can_edit_question user_id qid s
    = (Ok (if String.eqb (summary_status sm) QUESTION_STATUS_PENDING then false
           else if (String.eqb (summary_status sm) ACTIVITY_STATUS_PRIVATE ||
                    String.eqb (summary_status sm) QUESTION_STATUS_REJECTED) &&
                   String.eqb (summary_creator_id sm) user_id then true
           else (is_admin user_id || is_topic_manager user_id) &&
                String.eqb (summary_status sm) QUESTION_STATUS_APPROVED), s).
Proof.
  intros Hsm.
  unfold check_can_edit_question, bind, get_question_summary_by_question_id,
    QuestionSummaryModel_get, ret.
  rewrite Hsm.
  repeat match goal with |- context [if ?b then _ else _] => destruct b end;
    reflexivity.
Qed.

(** Sending a question for review works from any status and for any
    committer: the summary becomes pending, one commit is recorded with the
    committer, and from then on the editing check answers False for every
    user, the creator and the admins included. *)
Theorem send_for_review_locks_editing (s : State) (committer_id qid : string)
    (sm : QuestionSummaryModel) :
  summaries s !! qid = Some sm ->
  summary_id sm = qid ->
  exists s' : State,
    send_question_for_review committer_id qid s = (Ok tt, s') /\
    summaries s' !! qid = Some (with_status sm QUESTION_STATUS_PENDING) /\
    summary_commits s'
      = summary_commits s ++
        [mkSummaryCommit qid committer_id "Marked question as pending."
           CMD_SEND_QUESTION_FOR_REVIEW] /\
    forall user_id, check_can_edit_question user_id qid s' = (Ok false, s').
Proof.
  intros Hsm Hid. eexists. split.
  - unfold send_question_for_review, bind, get_question_summary_by_question_id,
      QuestionSummaryModel_get, QuestionSummaryModel_commit.
    rewrite Hsm. reflexivity.
  - simpl. rewrite Hid, lookup_insert_eq. split; [done|]. split; [done|].
    intros user_id.
    rewrite (check_can_edit_question_status _ _ _ (with_status sm QUESTION_STATUS_PENDING)).
    + reflexivity.
    + simpl. by rewrite lookup_insert_eq.
Qed.

(** Rejecting works from any status and for any committer too; afterwards
    the question is editable by its creator and by nobody else. *)
Theorem reject_returns_question_to_creator (s : State) (committer_id qid : string)
    (sm : QuestionSummaryModel) :
  summaries s !! qid = Some sm ->
  summary_id sm = qid ->
  exists s' : State,
    reject_question committer_id qid s = (Ok tt, s') /\
    summaries s' !! qid = Some (with_status sm QUESTION_STATUS_REJECTED) /\
    forall user_id,
      check_can_edit_question user_id qid s'
        = (Ok (String.eqb (summary_creator_id sm) user_id), s').
Proof.
  intros Hsm Hid. eexists. split.
  - unfold reject_question, bind, get_question_summary_by_question_id,
      QuestionSummaryModel_get, QuestionSummaryModel_commit.
    rewrite Hsm. reflexivity.
  - simpl. rewrite Hid, lookup_insert_eq. split; [done|].
    intros user_id.
    rewrite (check_can_edit_question_status _ _ _ (with_status sm QUESTION_STATUS_REJECTED)).
    + simpl. rewrite andb_false_r.
      by destruct (String.eqb (summary_creator_id sm) user_id).
    + simpl. by rewrite lookup_insert_eq.
Qed.

(** A successful publish hands the question over: afterwards it is editable
    exactly by admins and topic managers, and its creator, unless one of
    them, can no longer edit it.  A successful unpublish hands it back:
    afterwards it is editable exactly by its creator. *)
Theorem publish_switches_editors (s : State) (qid committer_id : string)
    (sm : QuestionSummaryModel) :
  summaries s !! qid = Some sm ->
  summary_id sm = qid ->
  holds_status_change committer_id = true ->
  (summary_status sm <> QUESTION_STATUS_APPROVED ->
   exists s' : State,
     publish_question qid committer_id s = (Ok tt, s') /\
     forall user_id,
       check_can_edit_question user_id qid s'
         = (Ok (is_admin user_id || is_topic_manager user_id), s')) /\
  (summary_status sm = QUESTION_STATUS_APPROVED ->
   exists s' : State,
     unpublish_question qid committer_id s = (Ok tt, s') /\
     forall user_id,
       check_can_edit_question user_id qid s'
         = (Ok (String.eqb (summary_creator_id sm) user_id), s')).
Proof.
  intros Hsm Hid Hcap.
  assert (Hpub : summary_status sm <> QUESTION_STATUS_APPROVED ->
            publish_question qid committer_id s
              = (Ok tt, set_summaries
                          (insert qid (with_status sm QUESTION_STATUS_APPROVED)) s)).
  { intros Hst%String.eqb_neq.
    unfold publish_question, bind, get_question_summary_by_question_id,
      QuestionSummaryModel_get, QuestionSummaryModel_put.
    rewrite Hsm, Hcap, Hst. simpl. by rewrite Hid. }
  assert (Hunpub : summary_status sm = QUESTION_STATUS_APPROVED ->
            unpublish_question qid committer_id s
              = (Ok tt, set_summaries
                          (insert qid (with_status sm ACTIVITY_STATUS_PRIVATE)) s)).
  { intros Hst.
    unfold unpublish_question, bind, get_question_summary_by_question_id,
      QuestionSummaryModel_get, QuestionSummaryModel_put.
    rewrite Hsm, Hcap, Hst. simpl. by rewrite Hid. }
  split.
  - intros Hst. eexists. split; [by apply Hpub|].
    intros user_id.
    rewrite (check_can_edit_question_status _ _ _ (with_status sm QUESTION_STATUS_APPROVED)).
    + simpl. by rewrite andb_true_r.
    + simpl. by rewrite lookup_insert_eq.
  - intros Hst. eexists. split; [by apply Hunpub|].
    intros user_id.
    rewrite (check_can_edit_question_status _ _ _ (with_status sm ACTIVITY_STATUS_PRIVATE)).
    + simpl. rewrite andb_false_r.
      by destruct (String.eqb (summary_creator_id sm) user_id).
    + simpl. by rewrite lookup_insert_eq.
Qed.

End WorkflowMore.

Lemma workflow_without_summary_witness :
  @publish_question Sample.world "q9" "mallory" (Sample.s_created "private")
    = (Raise QuestionDoesNotExist, Sample.s_created "private") /\
  @unpublish_question Sample.world "q9" "mallory" (Sample.s_created "private")
    = (Raise QuestionDoesNotExist, Sample.s_created "private") /\
  send_question_for_review "mallory" "q9" (Sample.s_created "private")
    = (Raise AttributeError, Sample.s_created "private") /\
  reject_question "mallory" "q9" (Sample.s_created "private")
    = (Raise AttributeError, Sample.s_created "private") /\
  @check_can_edit_question Sample.world "mallory" "q9" (Sample.s_created "private")
    = (Raise AttributeError, Sample.s_created "private").
Proof.
  apply (@workflow_without_summary Sample.world (Sample.s_created "private")
           "q9" "mallory").
  vm_compute; reflexivity.
Defined.

Lemma send_for_review_locks_editing_witness :
  exists s' : State,
    send_question_for_review "mallory" "q1" (Sample.s_created "approved") = (Ok tt, s') /\
    summaries s' !! "q1"
      = Some (with_status (Sample.summary_of "approved") QUESTION_STATUS_PENDING) /\
    summary_commits s'
      = summary_commits (Sample.s_created "approved") ++
        [mkSummaryCommit "q1" "mallory" "Marked question as pending."
           CMD_SEND_QUESTION_FOR_REVIEW] /\
    forall user_id,
      @check_can_edit_question Sample.world user_id "q1" s' = (Ok false, s').
Proof.
  apply (@send_for_review_locks_editing Sample.world (Sample.s_created "approved")
           "mallory" "q1" (Sample.summary_of "approved"));
    vm_compute; reflexivity.
Defined.

Lemma reject_returns_question_to_creator_witness :
  exists s' : State,
    reject_question "mallory" "q1" (Sample.s_created "approved") = (Ok tt, s') /\
    summaries s' !! "q1"
      = Some (with_status (Sample.summary_of "approved") QUESTION_STATUS_REJECTED) /\
    forall user_id,
      @check_can_edit_question Sample.world user_id "q1" s'
        = (Ok (String.eqb (summary_creator_id (Sample.summary_of "approved")) user_id), s').
Proof.
  apply (@reject_returns_question_to_creator Sample.world
           (Sample.s_created "approved") "mallory" "q1" (Sample.summary_of "approved"));
    vm_compute; reflexivity.
Defined.

Lemma publish_switches_editors_witness :
  exists s' : State,
    @publish_question Sample.world "q1" "root" (Sample.s_created "pending") = (Ok tt, s') /\
    forall user_id,
      @check_can_edit_question Sample.world user_id "q1" s'
        = (Ok (@is_admin Sample.world user_id || @is_topic_manager Sample.world user_id), s').
Proof.
  apply (proj1 (@publish_switches_editors Sample.world (Sample.s_created "pending")
                  "q1" "root" (Sample.summary_of "pending")
                  ltac:(vm_compute; reflexivity) eq_refl eq_refl)).
  discriminate.
Defined.

Section RoundTrips.
Context `{Collaborators}.

Lemma set_summaries_insert_same (s : State) (qid : string) (sm : QuestionSummaryModel) :
  summaries s !! qid = Some sm ->
  set_summaries (insert qid sm) s = s.
Proof.
  intros Hsm. destruct s. unfold set_summaries. simpl in *.
  by rewrite insert_id.
Qed.

Lemma with_status_same (sm : QuestionSummaryModel) :
  with_status sm (summary_status sm) = sm.
Proof. by destruct sm. Qed.

Lemma publish_question_approves (s : State) (qid committer_id : string)
    (sm : QuestionSummaryModel) :
  summaries s !! qid = Some sm ->
  summary_id sm = qid ->
  holds_status_change committer_id = true ->
  summary_status sm <> QUESTION_STATUS_APPROVED ->
  publish_question qid committer_id s
    = (Ok tt, set_summaries (insert qid (with_status sm QUESTION_STATUS_APPROVED)) s).
Proof.
  intros Hsm Hid Hcap Hst%String.eqb_neq.
  unfold publish_question, bind, get_question_summary_by_question_id,
    QuestionSummaryModel_get, QuestionSummaryModel_put.
  rewrite Hsm, Hcap, Hst. simpl. by rewrite Hid.
Qed.

Lemma unpublish_question_privatises (s : State) (qid committer_id : string)
    (sm : QuestionSummaryModel) :
  summaries s !! qid = Some sm ->
  summary_id sm = qid ->
  holds_status_change committer_id = true ->
  summary_status sm = QUESTION_STATUS_APPROVED ->
  unpublish_question qid committer_id s
    = (Ok tt, set_summaries (insert qid (with_status sm ACTIVITY_STATUS_PRIVATE)) s).
Proof.
  intros Hsm Hid Hcap Hst.
  unfold unpublish_question, bind, get_question_summary_by_question_id,
    QuestionSummaryModel_get, QuestionSummaryModel_put.
  rewrite Hsm, Hcap, Hst. simpl. by rewrite Hid.
Qed.

(** Publish followed by unpublish does not restore the summary: it ends
    private whatever it was before (a pending or rejected status is
    forgotten).  Unpublish followed by publish on an approved question
    gives back exactly the state it started from. *)
Theorem publish_unpublish_round_trips (s : State) (qid committer_id : string)
    (sm : QuestionSummaryModel) :
  summaries s !! qid = Some sm ->
  summary_id sm = qid ->
  holds_status_change committer_id = true ->
  (summary_status sm <> QUESTION_STATUS_APPROVED ->
   exists s1 s2 : State,
     publish_question qid committer_id s = (Ok tt, s1) /\
     unpublish_question qid committer_id s1 = (Ok tt, s2) /\
     summaries s2 !! qid = Some (with_status sm ACTIVITY_STATUS_PRIVATE)) /\
  (summary_status sm = QUESTION_STATUS_APPROVED ->
   exists s1 : State,
     unpublish_question qid committer_id s = (Ok tt, s1) /\
     publish_question qid committer_id s1 = (Ok tt, s)).
Proof.
  intros Hsm Hid Hcap. split.
  - intros Hst. do 2 eexists.
    split; [by apply publish_question_approves|]. split.
    + apply (unpublish_question_privatises _ _ _
               (with_status sm QUESTION_STATUS_APPROVED)); try done.
      simpl. apply lookup_insert_eq.
    + simpl. by rewrite lookup_insert_eq.
  - intros Hst. eexists.
    split; [by apply unpublish_question_privatises|].
    rewrite (publish_question_approves _ _ _
               (with_status sm ACTIVITY_STATUS_PRIVATE)); try done.
    + f_equal. unfold set_summaries at 1 2. simpl. rewrite insert_insert_eq.
      change (with_status (with_status sm ACTIVITY_STATUS_PRIVATE) QUESTION_STATUS_APPROVED)
        with (with_status sm QUESTION_STATUS_APPROVED).
      rewrite <- Hst, with_status_same.
      by apply (set_summaries_insert_same s qid sm).
    + simpl. apply lookup_insert_eq.
Qed.

End RoundTrips.

Lemma publish_unpublish_round_trips_witness :
  (exists s1 s2 : State,
     @publish_question Sample.world "q1" "root" (Sample.s_created "rejected")
       = (Ok tt, s1) /\
     @unpublish_question Sample.world "q1" "root" s1 = (Ok tt, s2) /\
     summaries s2 !! "q1"
       = Some (with_status (Sample.summary_of "rejected") ACTIVITY_STATUS_PRIVATE)) /\
  (exists s1 : State,
     @unpublish_question Sample.world "q1" "root" (Sample.s_created "approved")
       = (Ok tt, s1) /\
     @publish_question Sample.world "q1" "root" s1
       = (Ok tt, Sample.s_created "approved")).
Proof.
  split.
  - apply (proj1 (@publish_unpublish_round_trips Sample.world
                    (Sample.s_created "rejected") "q1" "root"
                    (Sample.summary_of "rejected")
                    ltac:(vm_compute; reflexivity) eq_refl eq_refl)).
    discriminate.
  - apply (proj2 (@publish_unpublish_round_trips Sample.world
                    (Sample.s_created "approved") "q1" "root"
                    (Sample.summary_of "approved")
                    ltac:(vm_compute; reflexivity) eq_refl eq_refl)).
    reflexivity.
Defined.

(** ** Drafts, read back *)

Lemma filled_twice (s : State) (qid : string) (q : Question) :
  served s qid = Some q -> filled (filled s qid) qid = filled s qid.
Proof.
  intros Hs. unfold filled at 1. by rewrite (served_filled _ _ _ Hs).
Qed.

Lemma summaries_of_filled (s : State) (qid : string) :
  summaries (filled s qid) = summaries s.
Proof.
  unfold filled. destruct (memcache s !! latest_key qid); [done|].
  by destruct (served s qid).
Qed.

Lemma served_set_user_data (s : State) (qid : string)
    (f : gmap (string * string) QuestionUserDataModel
         -> gmap (string * string) QuestionUserDataModel) :
  served (set_user_data f s) qid = served s qid.
Proof. reflexivity. Qed.

(** A draft-aware read in closed form. *)
Lemma get_question_with_draft_applied_served (s : State) (qid user_id : string)
    (q : Question) :
  served s qid = Some q ->
  get_question_with_draft_applied qid user_id s
    = (Ok (Some (with_draft (user_data s !! (user_id, qid)) q)), filled s qid).
Proof.
  intros Hs.
  unfold get_question_with_draft_applied, bind, QuestionUserDataModel_get, with_draft.
  rewrite get_question_by_id_latest, Hs.
  destruct (user_data s !! (user_id, qid)) as [d|]; [|done].
  unfold draft_applies.
  destruct (draft_change_list d) as [[|c cs]|]; [done| |done].
  rewrite (is_version_of_draft_valid_served _ _ _ q (served_idem _ _ _ Hs)).
  rewrite (filled_twice _ _ _ Hs). simpl.
  destruct (eq_opt_int _ _); [|done].
  rewrite (apply_change_list_served _ _ _ q (served_idem _ _ _ Hs)).
  by rewrite (filled_twice _ _ _ Hs).
Qed.

(** A draft-aware read on an existing question always returns: the draft's
    change list applied to the question a plain read serves when the row
    holds a non-empty change list recorded against the schema version of
    that question, and that question itself otherwise (no row, no or empty
    change list, other version).  It writes nothing but the cache: the
    question store, the summaries and the drafts are as before. *)
Theorem draft_read_is_read_only (s : State) (qid user_id : string) (q : Question) :
  served s qid = Some q ->
  exists s' : State,
    get_question_with_draft_applied qid user_id s
      = (Ok (Some (with_draft (user_data s !! (user_id, qid)) q)), s') /\
    questions s' = questions s /\
    summaries s' = summaries s /\
    user_data s' = user_data s.
Proof.
  intros Hs. exists (filled s qid).
  split; [by apply get_question_with_draft_applied_served|].
  split; [apply questions_filled|].
  split; [apply summaries_of_filled | apply user_data_filled].
Qed.

Lemma draft_read_is_read_only_witness :
  exists s' : State,
    get_question_with_draft_applied "q1" "bob" Sample.s_stale_draft
      = (Ok (Some (with_draft (user_data Sample.s_stale_draft !! ("bob", "q1"))
                     (mkQuestion "q1" (Sample.payload "P1") 1 (VStr "fr")))), s') /\
    questions s' = questions Sample.s_stale_draft /\
    summaries s' = summaries Sample.s_stale_draft /\
    user_data s' = user_data Sample.s_stale_draft.
Proof.
  apply (draft_read_is_read_only Sample.s_stale_draft "q1" "bob").
  vm_compute; reflexivity.
Defined.

Section DraftsMore.
Context `{Collaborators}.

(** A saved draft is read back applied exactly when it was saved with the
    schema version of the question as its version.  When there is no row,
    or the row's change list is absent or empty, or its timestamp is not
    after the supplied datetime, and the edited question validates, the
    save succeeds, and the draft-aware read then returns the saved change
    list applied to the question when the supplied version equals the
    question's schema version, and the plain question otherwise. *)
Theorem saved_draft_read_back (s : State) (qid user_id : string)
    (cl : list QuestionChange) (question_version now : Z) (q : Question) :
  (user_data s !! (user_id, qid) = None \/
   exists d, user_data s !! (user_id, qid) = Some d /\
     (draft_change_list d = None \/ draft_change_list d = Some [] \/
      exists t, draft_change_list_last_updated d = Some t /\ t <= now)) ->
  served s qid = Some q ->
  validate (fold_left apply_change cl q) = true ->
  exists s1 : State,
    create_or_update_draft qid user_id cl question_version now s = (Ok tt, s1) /\
    fst (get_question_with_draft_applied qid user_id s1)
      = Ok (Some (if question_data_schema_version q =? question_version
                  then fold_left apply_change cl q else q)).
Proof.
  intros Hg%newer_draft_exists_clear Hs Hv. eexists.
  split; [by apply (create_or_update_draft_saves _ _ _ _ _ _ q)|].
  rewrite (get_question_with_draft_applied_served _ _ _ q).
  - simpl. rewrite lookup_insert_eq. unfold with_draft, draft_applies. simpl.
    destruct cl as [|c cl]; simpl; [by destruct (_ =? _)|].
    by destruct (_ =? _).
  - rewrite served_set_user_data. by apply served_idem.
Qed.

(** After a discard a draft-aware read returns what a plain read
    returns, whatever draft was stored. *)
Theorem discarded_draft_not_applied (s : State) (qid user_id : string) (q : Question) :
  served s qid = Some q ->
  exists s1 : State,
    discard_draft qid user_id s = (Ok tt, s1) /\
    fst (get_question_with_draft_applied qid user_id s1) = Ok (Some q) /\
    fst (get_question_by_id qid true None s1) = Ok (Some q).
Proof.
  intros Hs.
  unfold discard_draft, bind, QuestionUserDataModel_get, QuestionUserDataModel_put, ret.
  destruct (user_data s !! (user_id, qid)) as [d|] eqn:Hd.
  - eexists. split; [reflexivity|]. split.
    + rewrite (get_question_with_draft_applied_served _ _ _ q);
        [|by rewrite served_set_user_data].
      simpl. by rewrite lookup_insert_eq.
    + rewrite get_question_by_id_latest, served_set_user_data. by rewrite Hs.
  - exists s. split; [reflexivity|]. split.
    + rewrite (get_question_with_draft_applied_served _ _ _ q Hs). by rewrite Hd.
    + by rewrite get_question_by_id_latest, Hs.
Qed.

(** Whatever its outcome, a draft save leaves the question store and the
    summaries alone and touches no draft row but the one of its user and
    question; the id of an existing row stays or grows by one, never
    shrinks; and a save that raises leaves every draft as it was. *)
Theorem create_or_update_draft_footprint (s s' : State) (qid user_id : string)
    (cl : list QuestionChange) (question_version now : Z) (o : outcome unit) :
  create_or_update_draft qid user_id cl question_version now s = (o, s') ->
  questions s' = questions s /\
  summaries s' = summaries s /\
  (forall k, k <> (user_id, qid) -> user_data s' !! k = user_data s !! k) /\
  (forall d, user_data s !! (user_id, qid) = Some d ->
     exists d', user_data s' !! (user_id, qid) = Some d' /\
       (draft_change_list_id d' = draft_change_list_id d \/
        draft_change_list_id d' = draft_change_list_id d + 1)) /\
  (forall e, o = Raise e -> user_data s' = user_data s).
Proof.
  unfold create_or_update_draft, bind at 1, QuestionUserDataModel_get at 1.
  destruct (newer_draft_exists (user_data s !! (user_id, qid)) now) as [[|]|e0].
  1, 3: intros [= <- <-]; repeat split; try done; intros d Hd; eauto.
  unfold bind at 1, apply_change_list, bind at 1.
  rewrite get_question_by_id_latest.
  destruct (served s qid) as [q|] eqn:Hs.
  2: { intros [= <- <-]. repeat split; try done. intros d Hd. eauto. }
  pose proof (questions_filled s qid) as Hfq.
  pose proof (summaries_of_filled s qid) as Hfs.
  pose proof (user_data_filled s qid) as Hfu.
  unfold ret at 1.
  destruct (validate (fold_left apply_change cl q)).
  2: { intros [= <- <-]. rewrite Hfq, Hfs, Hfu. repeat split; try done.
       intros d Hd. eauto. }
  destruct (user_data s !! (user_id, qid)) as [d0|] eqn:Hd0.
  - unfold bind, ret, QuestionUserDataModel_put. intros [= <- <-]. simpl.
    rewrite Hfq, Hfs, Hfu. repeat split; try done.
    + intros k Hk. by rewrite lookup_insert_ne.
    + intros d [= <-]. rewrite lookup_insert_eq. eexists. split; [done|].
      right. reflexivity.
  - unfold bind, ret, QuestionUserDataModel_create, bind, QuestionUserDataModel_put, ret.
    intros [= <- <-]. simpl. rewrite Hfq, Hfs, Hfu. repeat split; try done.
    intros k Hk. by rewrite !lookup_insert_ne.
Qed.

End DraftsMore.

Lemma saved_draft_read_back_witness :
  exists s1 : State,
    @create_or_update_draft Sample.world "q1" "bob" [Sample.set_language "en"] 1 100
      Sample.s_stale_draft = (Ok tt, s1) /\
    fst (get_question_with_draft_applied "q1" "bob" s1)
      = Ok (Some (if question_data_schema_version
                       (mkQuestion "q1" (Sample.payload "P1") 1 (VStr "fr")) =? 1
                  then fold_left apply_change [Sample.set_language "en"]
                         (mkQuestion "q1" (Sample.payload "P1") 1 (VStr "fr"))
                  else mkQuestion "q1" (Sample.payload "P1") 1 (VStr "fr"))).
Proof.
  apply (@saved_draft_read_back Sample.world Sample.s_stale_draft "q1" "bob"
           [Sample.set_language "en"] 1 100
           (mkQuestion "q1" (Sample.payload "P1") 1 (VStr "fr")));
    [| vm_compute; reflexivity | vm_compute; reflexivity].
  right. exists (mkUserData (Some [Sample.set_language "de"]) (Some 100) (Some 1) 1).
  split; [vm_compute; reflexivity|].
  right. right. exists 100. split; [reflexivity | lia].
Defined.

Lemma discarded_draft_not_applied_witness :
  exists s1 : State,
    discard_draft "q1" "bob" Sample.s_stale_draft = (Ok tt, s1) /\
    fst (get_question_with_draft_applied "q1" "bob" s1)
      = Ok (Some (mkQuestion "q1" (Sample.payload "P1") 1 (VStr "fr"))) /\
    fst (get_question_by_id "q1" true None s1)
      = Ok (Some (mkQuestion "q1" (Sample.payload "P1") 1 (VStr "fr"))).
Proof.
  apply (discarded_draft_not_applied Sample.s_stale_draft "q1" "bob").
  vm_compute; reflexivity.
Defined.

Lemma create_or_update_draft_footprint_witness :
  questions (snd (@create_or_update_draft Sample.world "q1" "bob"
                    [Sample.set_language "en"] 1 200 Sample.s_stale_draft))
    = questions Sample.s_stale_draft /\
  summaries (snd (@create_or_update_draft Sample.world "q1" "bob"
                    [Sample.set_language "en"] 1 200 Sample.s_stale_draft))
    = summaries Sample.s_stale_draft /\
  (forall k, k <> ("bob", "q1") ->
     user_data (snd (@create_or_update_draft Sample.world "q1" "bob"
                       [Sample.set_language "en"] 1 200 Sample.s_stale_draft)) !! k
       = user_data Sample.s_stale_draft !! k) /\
  (forall d, user_data Sample.s_stale_draft !! ("bob", "q1") = Some d ->
     exists d',
       user_data (snd (@create_or_update_draft Sample.world "q1" "bob"
                         [Sample.set_language "en"] 1 200 Sample.s_stale_draft))
         !! ("bob", "q1") = Some d' /\
       (draft_change_list_id d' = draft_change_list_id d \/
        draft_change_list_id d' = draft_change_list_id d + 1)) /\
  (forall e,
     fst (@create_or_update_draft Sample.world "q1" "bob"
            [Sample.set_language "en"] 1 200 Sample.s_stale_draft) = Raise e ->
     user_data (snd (@create_or_update_draft Sample.world "q1" "bob"
                       [Sample.set_language "en"] 1 200 Sample.s_stale_draft))
       = user_data Sample.s_stale_draft).
Proof.
  apply (@create_or_update_draft_footprint Sample.world Sample.s_stale_draft _
           "q1" "bob" [Sample.set_language "en"] 1 200).
  vm_compute; reflexivity.
Defined.

(** ** The editor's view of a question *)

Lemma with_draft_fields (row : option QuestionUserDataModel) (q : Question) :
  question_data (with_draft row q) = question_data q /\
  question_data_schema_version (with_draft row q) = question_data_schema_version q.
Proof.
  unfold with_draft. destruct row as [d|]; [|done].
  destruct (draft_applies d q); [|done].
  destruct (fold_apply_change_fields (default [] (draft_change_list d)) q)
    as (Hd & Hv & _).
  by rewrite Hd, Hv.
Qed.

(** The dict built for the editor, in closed form, for a draft-aware read
    or a plain read of the latest version. *)
Lemma get_user_question_data_served (s : State) (user_id qid : string)
    (apply_draft : bool) (q : Question) :
  served s qid = Some q ->
  get_user_question_data user_id qid apply_draft None s
    = (Ok {| ed_draft_change_list_id :=
               match user_data s !! (user_id, qid) with
               | Some d => draft_change_list_id d
               | None => 0
               end;
             ed_question_id := qid;
             ed_language_code :=
               language_code (if apply_draft
                              then with_draft (user_data s !! (user_id, qid)) q
                              else q);
             ed_param_changes := [];
             ed_param_specs := [];
             ed_states_question_data := question_data q;
             ed_version := question_data_schema_version q;
             ed_is_version_of_draft_valid :=
               match user_data s !! (user_id, qid) with
               | Some d =>
                   if truthy_int (draft_change_list_question_version d)
                   then Some (eq_opt_int (question_data_schema_version q)
                                (draft_change_list_question_version d))
                   else None
               | None => None
               end;
             ed_draft_changes :=
               match user_data s !! (user_id, qid) with
               | Some d => if truthy_list (draft_change_list d)
                           then draft_change_list d else None
               | None => None
               end;
             ed_init_state_name := "question_data" |}, filled s qid).
Proof.
  intros Hs. unfold get_user_question_data, bind at 1.
  assert (Hfirst : (if apply_draft
                    then get_question_with_draft_applied qid user_id
                    else get_question_by_id qid true None) s
                   = (Ok (Some (if apply_draft
                                then with_draft (user_data s !! (user_id, qid)) q
                                else q)), filled s qid)).
  { destruct apply_draft.
    - by apply get_question_with_draft_applied_served.
    - by rewrite get_question_by_id_latest, Hs. }
  rewrite Hfirst. unfold bind at 1, QuestionUserDataModel_get at 1.
  rewrite user_data_filled.
  assert (Hfields : question_data (if apply_draft
                       then with_draft (user_data s !! (user_id, qid)) q else q)
                    = question_data q /\
                    question_data_schema_version (if apply_draft
                       then with_draft (user_data s !! (user_id, qid)) q else q)
                    = question_data_schema_version q).
  { destruct apply_draft; [apply with_draft_fields | done]. }
  destruct Hfields as [Hdata Hver]. rewrite Hdata, Hver.
  destruct (user_data s !! (user_id, qid)) as [d|]; [|done].
  destruct (truthy_int (draft_change_list_question_version d)); [|done].
  unfold bind.
  rewrite (is_version_of_draft_valid_served _ _ _ q (served_idem _ _ _ Hs)).
  by rewrite (filled_twice _ _ _ Hs).
Qed.

(** What the editor is told about an existing question.  The reported
    version and question data are those of the question a plain read
    serves, draft or not.  When the validity flag is True and draft changes
    are reported, a draft-aware call reports the language code of the draft
    applied to the question; when the flag is False, or the call is not
    draft-aware, it reports the language code of the question.  Without a
    draft row the id is 0, no changes are reported and the flag is None. *)
Theorem editor_data_consistent (s : State) (user_id qid : string)
    (apply_draft : bool) (q : Question) :
  served s qid = Some q ->
  exists (ed : EditorDict) (s' : State),
    get_user_question_data user_id qid apply_draft None s = (Ok ed, s') /\
    ed_states_question_data ed = question_data q /\
    ed_version ed = question_data_schema_version q /\
    (ed_is_version_of_draft_valid ed = Some true -> apply_draft = true ->
     forall cl, ed_draft_changes ed = Some cl ->
       ed_language_code ed = language_code (fold_left apply_change cl q)) /\
    (ed_is_version_of_draft_valid ed = Some false ->
     ed_language_code ed = language_code q) /\
    (apply_draft = false -> ed_language_code ed = language_code q) /\
    (user_data s !! (user_id, qid) = None ->
     ed_draft_change_list_id ed = 0 /\ ed_draft_changes ed = None /\
     ed_is_version_of_draft_valid ed = None /\
     ed_language_code ed = language_code q).
Proof.
  intros Hs. do 2 eexists.
  split; [by apply get_user_question_data_served|]. simpl.
  split; [done|]. split; [done|].
  destruct (user_data s !! (user_id, qid)) as [d|] eqn:Hd; simpl.
  - split; [|split; [|split]]; try done.
    + destruct (truthy_int _); [|done]. intros [= Hvalid] -> cl.
      unfold draft_applies.
      destruct (truthy_list (draft_change_list d)); [|done].
      intros Hcl. by rewrite Hvalid, Hcl.
    + destruct (truthy_int _); [|done]. intros [= Hvalid].
      destruct apply_draft; [|done].
      unfold draft_applies. by rewrite Hvalid, andb_false_r.
    + by intros ->.
  - split; [done|]. split; [done|]. split; [by intros ->|].
    by destruct apply_draft.
Qed.

Lemma editor_data_consistent_witness :
  exists (ed : EditorDict) (s' : State),
    get_user_question_data "bob" "q1" true None Sample.s_stale_draft = (Ok ed, s') /\
    ed_states_question_data ed
      = question_data (mkQuestion "q1" (Sample.payload "P1") 1 (VStr "fr")) /\
    ed_version ed = 1 /\
    (ed_is_version_of_draft_valid ed = Some true -> true = true ->
     forall cl, ed_draft_changes ed = Some cl ->
       ed_language_code ed
         = language_code (fold_left apply_change cl
                            (mkQuestion "q1" (Sample.payload "P1") 1 (VStr "fr")))) /\
    (ed_is_version_of_draft_valid ed = Some false ->
     ed_language_code ed = VStr "fr") /\
    (true = false -> ed_language_code ed = VStr "fr") /\
    (user_data Sample.s_stale_draft !! ("bob", "q1") = None ->
     ed_draft_change_list_id ed = 0 /\ ed_draft_changes ed = None /\
     ed_is_version_of_draft_valid ed = None /\
     ed_language_code ed = VStr "fr").
Proof.
  apply (editor_data_consistent Sample.s_stale_draft "bob" "q1" true
           (mkQuestion "q1" (Sample.payload "P1") 1 (VStr "fr"))).
  vm_compute; reflexivity.
Defined.

(** ** Rights *)

(** Creating the rights of a question always succeeds and a following read
    returns rights with that id and no managers, also when the id had
    rights before; nothing outside the rights store changes. *)
Theorem rights_created_then_read (w : World) (qid committer_id : string)
    (strict : bool) :
  exists w' : World,
    create_new_question_rights qid committer_id w = (Returns tt, w') /\
    get_question_rights qid strict w'
      = (Returns (Some {| rights_id := qid; manager_ids := [] |}), w') /\
    base w' = base w /\
    graveyard w' = graveyard w.
Proof.
  eexists. split; [reflexivity|].
  unfold get_question_rights, wbind, QuestionRightsModel_get. simpl.
  by rewrite lookup_insert_eq.
Qed.

(** Without a rights model for the id: a strict read raises, a lenient read
    returns None, and saving rights fails on the missing model; the world
    is unchanged in all three. *)
Theorem rights_missing (w : World) (qid committer_id message : string)
    (ms : list string) (cmds : list QuestionChange) :
  question_rights w !! qid = None ->
  get_question_rights qid true w = (Raises (ServiceError EntityNotFoundError), w) /\
  get_question_rights qid false w = (Returns None, w) /\
  save_question_rights {| rights_id := qid; manager_ids := ms |}
    committer_id message cmds w = (Raises (ServiceError AttributeError), w).
Proof.
  intros Hn.
  unfold get_question_rights, save_question_rights, wbind, QuestionRightsModel_get.
  simpl. by rewrite Hn.
Qed.

Lemma rights_missing_witness :
  get_question_rights "q1" true empty_world
    = (Raises (ServiceError EntityNotFoundError), empty_world) /\
  get_question_rights "q1" false empty_world = (Returns None, empty_world) /\
  save_question_rights {| rights_id := "q1"; manager_ids := ["tm"] |}
    "root" "assign" [] empty_world
    = (Raises (ServiceError AttributeError), empty_world).
Proof.
  apply (rights_missing empty_world "q1" "root" "assign" ["tm"] []).
  vm_compute; reflexivity.
Defined.

(** Saving rights on an existing model replaces the manager ids, moves
    the rights version forward by one and adds one log entry; a following
    read returns the saved rights. *)
Theorem rights_saved_then_read (w : World) (qid committer_id message : string)
    (ms : list string) (cmds : list QuestionChange) (strict : bool)
    (vr : VersionedRights) :
  question_rights w !! qid = Some vr ->
  rights_model_id (rights_current vr) = qid ->
  exists (w' : World) (vr' : VersionedRights),
    save_question_rights {| rights_id := qid; manager_ids := ms |}
      committer_id message cmds w = (Returns tt, w') /\
    get_question_rights qid strict w'
      = (Returns (Some {| rights_id := qid; manager_ids := ms |}), w') /\
    question_rights w' !! qid = Some vr' /\
    rights_model_version (rights_current vr')
      = rights_model_version (rights_current vr) + 1 /\
    length (rights_log vr') = S (length (rights_log vr)) /\
    base w' = base w.
Proof.
  intros Hvr Hid.
  unfold save_question_rights, get_question_rights, wbind,
    QuestionRightsModel_get, QuestionRightsModel_commit.
  simpl. rewrite Hvr. simpl. rewrite Hid, Hvr.
  do 2 eexists. split; [reflexivity|]. simpl. rewrite lookup_insert_eq.
  split; [reflexivity|]. split; [reflexivity|]. simpl.
  split; [reflexivity|]. split; [|reflexivity].
  rewrite length_app. simpl. lia.
Qed.

Lemma rights_saved_then_read_witness :
  exists (w' : World) (vr' : VersionedRights),
    save_question_rights {| rights_id := "q1"; manager_ids := ["tm"] |}
      "root" "assign" [] created_world = (Returns tt, w') /\
    get_question_rights "q1" true w'
      = (Returns (Some {| rights_id := "q1"; manager_ids := ["tm"] |}), w') /\
    question_rights w' !! "q1" = Some vr' /\
    rights_model_version (rights_current vr')
      = rights_model_version (mkRightsModel "q1" [] 1) + 1 /\
    length (rights_log vr') = 2%nat /\
    base w' = base created_world.
Proof.
  apply (rights_saved_then_read created_world "q1" "root" "assign" ["tm"] [] true
           (mkVersionedRights (mkRightsModel "q1" [] 1)
              [mkCommit 1 "alice" (Some "Created new question rights")
                 [mkChange CMD_CREATE_NEW "" VNone]]));
    vm_compute; reflexivity.
Defined.

(** ** Creation *)

Section Creation.
Context `{Collaborators}.

Lemma wbind_returns {A B} (m : W A) (k : A -> W B) (a : A) (w w' : World) :
  m w = (Returns a, w') -> wbind m k w = k a w'.
Proof. intros Hm. unfold wbind. by rewrite Hm. Qed.

Lemma create_question_summary_run (w : World) (qid creator_id status : string)
    (q : Question) (content html : value) :
  served (base w) qid = Some q ->
  getitem (question_data q) "content" = Returns content ->
  getitem content "html" = Returns html ->
  create_question_summary qid creator_id status w
    = (Returns tt,
       set_base
         (set_summaries
            (insert (question_id q)
               {| summary_id := question_id q;
                  summary_creator_id := creator_id;
                  summary_language_code := language_code q;
                  summary_status := status;
                  summary_question_html_data := html |})
            (filled (base w) qid)) w).
Proof.
  intros Hs Hc Hh. unfold create_question_summary, wbind, lift.
  rewrite get_question_by_id_latest, Hs.
  unfold wpure, compute_summary_of_question. rewrite Hc, Hh.
  reflexivity.
Qed.

(** A question that does not validate is not created: the call raises the
    validation error and the world is unchanged.  A valid question with a
    fresh id, nothing cached under it and a payload holding
    [content][html] is created whole: the call returns its id, the store
    holds it as version 1 with one snapshot and one log entry naming the
    committer, its summary is private with the committer as creator and the
    payload's html as excerpt, its rights have no managers, a read returns
    the question as given, and the committer may edit it. *)
Theorem add_question_creates (w : World) (committer_id : string) (q : Question) :
  (validate q = false ->
   add_question committer_id q w = (Raises (ServiceError ValidationError), w)) /\
  (forall content html : value,
   validate q = true ->
   questions (base w) !! question_id q = None ->
   memcache (base w) !! latest_key (question_id q) = None ->
   getitem (question_data q) "content" = Returns content ->
   getitem content "html" = Returns html ->
   exists w' : World,
     add_question committer_id q w = (Returns (question_id q), w') /\
     questions (base w') !! question_id q
       = Some {| current :=
                   mkModel (question_id q) (question_data q)
                     (question_data_schema_version q) (language_code q) 1;
                 snapshots :=
                   [mkModel (question_id q) (question_data q)
                      (question_data_schema_version q) (language_code q) 1];
                 commit_log :=
                   [mkCommit 1 committer_id (Some "New question created")
                      [mkChange CMD_CREATE_NEW "" VNone]] |} /\
     summaries (base w') !! question_id q
       = Some {| summary_id := question_id q;
                 summary_creator_id := committer_id;
                 summary_language_code := language_code q;
                 summary_status := ACTIVITY_STATUS_PRIVATE;
                 summary_question_html_data := html |} /\
     get_question_rights (question_id q) true w'
       = (Returns (Some {| rights_id := question_id q; manager_ids := [] |}), w') /\
     lift (get_question_by_id (question_id q) true None) w' = (Returns (Some q), w') /\
     lift (check_can_edit_question committer_id (question_id q)) w'
       = (Returns true, w')).
Proof.
  split.
  - intros Hv. unfold add_question, _create_new_question. by rewrite Hv.
  - intros content html Hv Hfresh Hcache Hc Hh.
    destruct q as [qid data sv lang]. simpl in *.
    pose (m1 := mkModel qid data sv lang 1).
    pose (vq1 := mkVersioned m1 [m1]
                   [mkCommit 1 committer_id (Some "New question created")
                      [mkChange CMD_CREATE_NEW "" VNone]]).
    pose (w1 := {| base := base w;
                   question_rights :=
                     <[qid := mkVersionedRights (mkRightsModel qid [] 1)
                                (match question_rights w !! qid with
                                 | Some vr => rights_log vr | None => [] end ++
                                 [mkCommit 1 committer_id
                                    (Some "Created new question rights")
                                    [mkChange CMD_CREATE_NEW "" VNone]])]>
                       (question_rights w);
                   graveyard := graveyard w;
                   removed_summaries := removed_summaries w |}).
    pose (w2 := set_base (set_questions (insert qid vq1) (base w)) w1).
    assert (Hserved : served (base w2) qid = Some (mkQuestion qid data sv lang)).
    { unfold served. simpl. by rewrite Hcache, lookup_insert_eq. }
    assert (Hfilled : filled (base w2) qid
                      = set_memcache (insert (latest_key qid) (mkQuestion qid data sv lang))
                          (base w2)).
    { unfold filled. rewrite Hserved. simpl. by rewrite Hcache. }
    unfold add_question, _create_new_question. rewrite Hv. simpl.
    rewrite (wbind_returns _ _ tt w w1); [|reflexivity].
    rewrite (wbind_returns _ _ tt w1 w2).
    2: { unfold lift, QuestionModel_commit. simpl. by rewrite Hfresh. }
    rewrite (wbind_returns _ _ tt w2 _
               (create_question_summary_run w2 qid committer_id ACTIVITY_STATUS_PRIVATE
                  (mkQuestion qid data sv lang) content html Hserved Hc Hh)).
    rewrite Hfilled. eexists. split; [reflexivity|]. simpl.
    split; [apply lookup_insert_eq|].
    split; [by rewrite lookup_insert_eq|].
    split.
    { unfold get_question_rights, wbind, QuestionRightsModel_get. simpl.
      by rewrite lookup_insert_eq. }
    split.
    { unfold lift. rewrite get_question_by_id_latest.
      unfold served, filled, served. simpl. by rewrite !lookup_insert_eq. }
    unfold lift, check_can_edit_question, bind,
      get_question_summary_by_question_id, QuestionSummaryModel_get. simpl.
    rewrite lookup_insert_eq. simpl. by rewrite String.eqb_refl.
Qed.

End Creation.

Lemma add_question_creates_witness :
  @add_question Sample.world "alice"
    (mkQuestion "q7" (Sample.payload "P7") 1 (VStr "xx")) empty_world
    = (Raises (ServiceError ValidationError), empty_world) /\
  exists w' : World,
    @add_question Sample.world "alice"
      (mkQuestion "q1" (Sample.payload "P1") 1 (VStr "en")) empty_world
      = (Returns "q1", w') /\
    base w' = filled (Sample.s_created "private") "q1" /\
    question_rights w' = question_rights created_world.
Proof.
  destruct (@add_question_creates Sample.world empty_world "alice"
              (mkQuestion "q7" (Sample.payload "P7") 1 (VStr "xx"))) as [Hbad _].
  destruct (@add_question_creates Sample.world empty_world "alice"
              (mkQuestion "q1" (Sample.payload "P1") 1 (VStr "en"))) as [_ Hgood].
  split; [apply Hbad; reflexivity|].
  destruct (Hgood (VDict [("html", VStr "P1")]) (VStr "P1")) as (w' & Hrun & _);
    try (vm_compute; reflexivity).
  exists w'. split; [exact Hrun|].
  vm_compute in Hrun. injection Hrun as <-. split; vm_compute; reflexivity.
Defined.

(** ** Deletion *)

Lemma delete_question_run (w : World) (committer_id qid : string) (force : bool)
    (vq : VersionedQuestion) :
  questions (base w) !! qid = Some vq ->
  delete_question committer_id qid force w
    = QuestionModel_delete (current vq) committer_id
        COMMIT_MESSAGE_QUESTION_DELETED force w.
Proof.
  intros Hq. unfold delete_question, wbind, lift, QuestionModel_get.
  rewrite Hq. by destruct w.
Qed.

(** Deleting a question that is not stored raises the not-found error and
    changes nothing.  Deleting a stored one, in either mode, succeeds and
    takes it out of the store, so that a second delete, in either mode,
    raises the not-found error; a soft delete retains the entity with all
    its snapshots, a hard delete retains nothing. *)
Theorem delete_question_then_not_found (w : World) (committer_id qid : string)
    (force : bool) :
  (questions (base w) !! qid = None ->
   delete_question committer_id qid force w
     = (Raises (ServiceError EntityNotFoundError), w)) /\
  (forall vq, questions (base w) !! qid = Some vq ->
   model_id (current vq) = qid ->
   exists w' : World,
     delete_question committer_id qid force w = (Returns tt, w') /\
     questions (base w') !! qid = None /\
     (forall c force', delete_question c qid force' w'
        = (Raises (ServiceError EntityNotFoundError), w')) /\
     (force = false -> snapshots <$> graveyard w' !! qid = Some (snapshots vq)) /\
     (force = true -> graveyard w' = graveyard w)).
Proof.
  assert (Hmissing : forall (w0 : World) c f, questions (base w0) !! qid = None ->
            delete_question c qid f w0 = (Raises (ServiceError EntityNotFoundError), w0)).
  { intros w0 c f Hn. unfold delete_question, wbind, lift, QuestionModel_get.
    rewrite Hn. by destruct w0. }
  split; [apply Hmissing|].
  intros vq Hq Hid. rewrite (delete_question_run _ _ _ _ vq Hq).
  unfold QuestionModel_delete. rewrite Hid, Hq.
  destruct force; eexists; (split; [reflexivity|]); simpl.
  - split; [apply lookup_delete_eq|].
    split; [intros c f; apply Hmissing; simpl; apply lookup_delete_eq|].
    split; [discriminate | reflexivity].
  - split; [apply lookup_delete_eq|].
    split; [intros c f; apply Hmissing; simpl; apply lookup_delete_eq|].
    split; [|discriminate]. intros _. by rewrite lookup_insert_eq.
Qed.

Lemma delete_question_then_not_found_witness :
  delete_question "alice" "q9" false created_world
    = (Raises (ServiceError EntityNotFoundError), created_world) /\
  exists w' : World,
    delete_question "alice" "q1" false created_world = (Returns tt, w') /\
    questions (base w') !! "q1" = None /\
    (forall c force', delete_question c "q1" force' w'
       = (Raises (ServiceError EntityNotFoundError), w')) /\
    (false = false ->
     snapshots <$> graveyard w' !! "q1"
       = Some (snapshots (mkVersioned Sample.model1 [Sample.model1]
                            [Sample.create_entry]))) /\
    (false = true -> graveyard w' = graveyard created_world).
Proof.
  split.
  - apply (proj1 (delete_question_then_not_found created_world "alice" "q9" false)).
    vm_compute; reflexivity.
  - apply (proj2 (delete_question_then_not_found created_world "alice" "q1" false)
             (mkVersioned Sample.model1 [Sample.model1] [Sample.create_entry]));
      vm_compute; reflexivity.
Defined.

(** A delete, soft or hard, does not touch the cache.  So a question that
    was cached is still served by a read of the latest version after its
    deletion, and one that was not cached is no longer found. *)
Theorem delete_question_leaves_the_cache (w : World) (committer_id qid : string)
    (force : bool) (vq : VersionedQuestion) :
  questions (base w) !! qid = Some vq ->
  model_id (current vq) = qid ->
  exists w' : World,
    delete_question committer_id qid force w = (Returns tt, w') /\
    memcache (base w') = memcache (base w) /\
    (forall q, memcache (base w) !! latest_key qid = Some q ->
       lift (get_question_by_id qid true None) w' = (Returns (Some q), w')) /\
    (memcache (base w) !! latest_key qid = None ->
       lift (get_question_by_id qid true None) w'
         = (Raises (ServiceError EntityNotFoundError), w')).
Proof.
  intros Hq Hid. rewrite (delete_question_run _ _ _ _ vq Hq).
  unfold QuestionModel_delete. rewrite Hid, Hq.
  destruct force; eexists; (split; [reflexivity|]); simpl;
    (split; [reflexivity|]); split.
  - intros q Hc. unfold lift. rewrite get_question_by_id_latest.
    unfold served, filled. simpl. by rewrite Hc.
  - intros Hc. unfold lift. rewrite get_question_by_id_latest.
    unfold served. simpl. by rewrite Hc, lookup_delete_eq.
  - intros q Hc. unfold lift. rewrite get_question_by_id_latest.
    unfold served, filled. simpl. by rewrite Hc.
  - intros Hc. unfold lift. rewrite get_question_by_id_latest.
    unfold served. simpl. by rewrite Hc, lookup_delete_eq.
Qed.

Lemma delete_question_leaves_the_cache_witness :
  exists w' : World,
    delete_question "alice" "q1" true
      (set_base (filled (Sample.s_created "private") "q1") created_world)
      = (Returns tt, w') /\
    memcache (base w') = memcache (filled (Sample.s_created "private") "q1") /\
    (forall q,
       memcache (filled (Sample.s_created "private") "q1") !! latest_key "q1" = Some q ->
       lift (get_question_by_id "q1" true None) w' = (Returns (Some q), w')) /\
    (memcache (filled (Sample.s_created "private") "q1") !! latest_key "q1" = None ->
     lift (get_question_by_id "q1" true None) w'
       = (Raises (ServiceError EntityNotFoundError), w')).
Proof.
  apply (delete_question_leaves_the_cache
           (set_base (filled (Sample.s_created "private") "q1") created_world)
           "alice" "q1" true
           (mkVersioned Sample.model1 [Sample.model1] [Sample.create_entry]));
    vm_compute; reflexivity.
Defined.
